(** * vgrain: the GRN inference driver (code/main.py)

    A shallow embedding of the driver script of the GAT-VGAE gene regulatory
    network pipeline: the per-trial [objective], the grid search of the
    main block, the final fixed run and its evaluation, together with the
    properties the specification states about them.

    - Numbers held in numpy arrays are rationals ([Q]); every finite float
      is one, and the driver only compares them ([== 1], [> 0.5]).  NaN is
      not represented.
    - The modules main.py imports ([preprocessors], [model], [evaluators],
      [loggers]) are the operations of an environment ([Env]); a run
      threads the outside world through their calls, records each call
      with its arguments and outcome, and ends with a value or with the
      exception that was raised.
    - Of optuna and sklearn the embedding has what main.py uses, written
      from their documented behaviour.
    - Console output, timing, the choice of the torch device and the
      reading of config.json are left out: the configuration is the record
      [Config], tensors are the arrays they are built from. *)

From Stdlib Require Import ZArith QArith Qround String List Bool Lia Arith.
From Stdlib Require Import Permutation Sorted.
From Stdlib Require Reals Lra.
Import ListNotations.

Local Open Scope Z_scope.

(** ** Arrays *)

(** A two-dimensional numpy array, row major. *)
Definition Matrix := list (list Q).

(** [torch.tensor(np.array(np.where(...)), dtype=torch.long)]: a 2 x E array
    of integers, first row the sources, second row the targets. *)
Definition EdgeIndex := (list Z * list Z)%type.

Definition edge_pairs (ei : EdgeIndex) : list (Z * Z) :=
  combine (fst ei) (snd ei).

(** [m.shape == (n, n)] *)
Definition square (n : nat) (m : Matrix) : Prop :=
  length m = n /\ Forall (fun row => length row = n) m.

(** ** [np.where(adj_matrix == 1)] (main.py lines 65 and 130)

    numpy scans the array in row-major order and returns the row indices and
    the column indices of the entries that satisfy the condition. *)

Fixpoint row_where (i j : nat) (row : list Q) : list (nat * nat) :=
  match row with
  | [] => []
  | x :: rest =>
      if Qeq_bool x 1 then (i, j) :: row_where i (S j) rest
      else row_where i (S j) rest
  end.

Fixpoint mat_where (i : nat) (m : Matrix) : list (nat * nat) :=
  match m with
  | [] => []
  | row :: rest => row_where i 0 row ++ mat_where (S i) rest
  end.

Definition np_where_eq1 (m : Matrix) : list nat * list nat :=
  let hits := mat_where 0 m in (map fst hits, map snd hits).

(** [torch.tensor(np.array(np.where(adj_matrix == 1)), dtype=torch.long)] *)
Definition edge_index_of (adj_matrix : Matrix) : EdgeIndex :=
  let w := np_where_eq1 adj_matrix in
  (map Z.of_nat (fst w), map Z.of_nat (snd w)).

(** Row-major order on index pairs. *)
Definition lex_lt (p q : Z * Z) : Prop :=
  fst p < fst q \/ (fst p = fst q /\ snd p < snd q).

(** ** Accuracy of the final run (main.py lines 169-172) *)

Inductive exn : Type :=
| ValueError (msg : string)
| KeyError (key : string)
| ConfigError (msg : string)
| DataError (msg : string)
| TrainingError (msg : string)
| IndexError (msg : string)
| ZeroDivisionError (msg : string)
| IOError (msg : string).

(** [ndarray.flatten()] *)
Definition flatten (m : Matrix) : list Q := concat m.

(** [(pred_flat > 0.5).astype(int)] on one entry *)
Definition binarize (p : Q) : Q :=
  if Qle_bool p (1 # 2) then 0%Q else 1%Q.

Fixpoint count_matches (y_true y_pred : list Q) : nat :=
  match y_true, y_pred with
  | t :: ts, p :: ps =>
      (if Qeq_bool t p then 1 else 0) + count_matches ts ps
  | _, _ => 0%nat
  end.

(** [sklearn.metrics.accuracy_score(y_true, y_pred)] with its defaults: the
    mean of [y_true == y_pred]; arrays of different lengths are rejected
    with a [ValueError].  On empty input the mean is NaN, which has no
    rational value: the embedding reports it as a [ValueError] too. *)
Definition accuracy_score (y_true y_pred : list Q) : exn + Q :=
  if negb (Nat.eqb (length y_true) (length y_pred)) then
    inl (ValueError "inconsistent numbers of samples")
  else
    match length y_true with
    | O => inl (ValueError "empty input")
    | S _ =>
        inr (Z.of_nat (count_matches y_true y_pred)
               # Pos.of_nat (length y_true))
    end.

(** Lines 170-172 *)
Definition final_accuracy (true_adj_matrix reconstructed_adjacency : Matrix)
  : exn + Q :=
  let true_flat := flatten true_adj_matrix in
  let pred_flat := flatten reconstructed_adjacency in
  accuracy_score true_flat (map binarize pred_flat).

(** The specification's wording of the accuracy: over all index pairs
    [(i, j)] with [i, j < n], diagonal included, the fraction at which the
    label equals the prediction thresholded at 0.5. *)
Definition entry (m : Matrix) (i j : nat) : Q := nth j (nth i m []) 0%Q.

(** A probability strictly greater than 0.5 is the label 1, any other is
    the label 0. *)
Definition threshold_label (p : Q) : Q :=
  if Qlt_le_dec (1 # 2) p then 1%Q else 0%Q.

Definition agrees (t p : Matrix) (i j : nat) : nat :=
  if Qeq_bool (entry t i j) (threshold_label (entry p i j)) then 1 else 0.

Definition sum_nat (l : list nat) : nat := fold_right Nat.add 0%nat l.

Definition spec_matches (n : nat) (t p : Matrix) : nat :=
  sum_nat (map (fun i => sum_nat (map (agrees t p i) (seq 0 n))) (seq 0 n)).

Definition spec_accuracy (n : nat) (t p : Matrix) : Q :=
  Z.of_nat (spec_matches n t p) # Pos.of_nat (n * n).

(** ** Python values, dictionaries and the configuration *)

(** The hyperparameters are JSON / Python numbers. *)
Inductive PyVal : Type :=
| VInt (z : Z)
| VFloat (q : Q).

Definition to_Q (v : PyVal) : Q :=
  match v with
  | VInt z => inject_Z z
  | VFloat q => q
  end.

(** Python's [==] on numbers. *)
Definition py_eqb (a b : PyVal) : bool := Qeq_bool (to_Q a) (to_Q b).

(** A dict with string keys, in insertion order. *)
Definition Dict := list (string * PyVal).

Fixpoint dict_get (d : Dict) (k : string) : option PyVal :=
  match d with
  | [] => None
  | (k', v) :: rest => if String.eqb k' k then Some v else dict_get rest k
  end.

(** [d[k] = v] *)
Fixpoint dict_set (d : Dict) (k : string) (v : PyVal) : Dict :=
  match d with
  | [] => [(k, v)]
  | (k', v') :: rest =>
      if String.eqb k' k then (k, v) :: rest else (k', v') :: dict_set rest k v
  end.

(** The content of config.json (lines 28-50).  The two optional keys are
    read with [config.get]. *)
Record Config : Type := {
  cfg_run_info_path : string;
  cfg_epoch_info_path : string;
  cfg_expr_file : string;
  cfg_network_file : string;
  cfg_dataset : string;
  cfg_num_neurons : PyVal;
  cfg_embedding_size : PyVal;
  cfg_num_heads : PyVal;
  cfg_learning_rate : PyVal;
  cfg_num_epochs : Z;
  cfg_threshold : Q;
  cfg_noise_factor : Q;
  cfg_dropout : option Q;
  cfg_k_fraction : option Q;
  cfg_tune_hyperparameters : bool;
  cfg_run_id : string
}.

Definition EXPR_FILE (c : Config) : string := cfg_expr_file c.
Definition NETWORK_FILE (c : Config) : string := cfg_network_file c.
Definition DATASET (c : Config) : string := cfg_dataset c.
Definition NUM_EPOCHS (c : Config) : Z := cfg_num_epochs c.
Definition THRESHOLD (c : Config) : Q := cfg_threshold c.
Definition NOISE_FACTOR (c : Config) : Q := cfg_noise_factor c.
(** [config.get('dropout', 0.2)] *)
Definition DROPOUT (c : Config) : Q :=
  match cfg_dropout c with Some d => d | None => (2 # 10)%Q end.
(** [config.get('k_fraction', 0.1)] *)
Definition K_FRACTION (c : Config) : Q :=
  match cfg_k_fraction c with Some k => k | None => (1 # 10)%Q end.
Definition TUNE_HYPERPARAMETERS (c : Config) : bool :=
  cfg_tune_hyperparameters c.

(** ** The collaborators

    [preprocessors], [model], [evaluators] and [loggers] are imported by
    main.py; the driver only calls them.  They are the operations of an
    environment: each may read and change the outside world (files, the
    random source, the log) and may raise. *)

(** Keyword arguments of the [GAT_VGAE] constructor as written at a call
    site; [arg_dropout = None] when the keyword is not passed. *)
Record GATArgs : Type := {
  arg_num_features : nat;
  arg_num_neurons : PyVal;
  arg_embedding_size : PyVal;
  arg_num_heads : PyVal;
  arg_num_nodes : nat;
  arg_dropout : option Q
}.

(** The tuple returned by [evaluate_model]. *)
Record Metrics : Type := {
  roc_auc : Q;
  prec : Q;
  rec : Q;
  f1 : Q;
  epr : Q;
  acc : Q;
  num_gt_edges : Z;
  n_nodes : Z;
  overlap_count : Z
}.

(** The arguments of [log_run_info]. *)
Record RunRecord : Type := {
  rr_run_id : string;
  rr_num_neurons : PyVal;
  rr_embedding_size : PyVal;
  rr_learning_rate : PyVal;
  rr_num_heads : PyVal;
  rr_metrics : Metrics;
  rr_dataset : string
}.

Class Env : Type := {
  World : Type;
  Model : Type;
  preprocess_data :
    string -> World -> exn + ((Matrix * list string) * World);
  construct_adjacency_matrix_with_noise :
    Matrix -> Q -> Q -> World -> exn + (Matrix * World);
  construct_adjacency_matrix : Matrix -> Q -> exn + Matrix;
  create_true_adjacency_matrix :
    string -> list string -> World -> exn + (Matrix * World);
  GAT_VGAE : GATArgs -> World -> exn + (Model * World);
  train_and_evaluate_ :
    Model -> EdgeIndex -> Matrix -> Matrix -> Matrix -> Z -> PyVal ->
    PyVal -> PyVal -> PyVal -> PyVal -> World -> exn + (Model * World);
  forward : Model -> EdgeIndex -> Matrix -> World -> exn + (Matrix * World);
  evaluate_model : Matrix -> Matrix -> World -> exn + (Metrics * World);
  log_run_info : RunRecord -> World -> exn + (unit * World);
  calculate_early_precision_rate :
    Matrix -> Matrix -> World -> exn + (Q * World);
  calculate_whole_network_overlap :
    Matrix -> Matrix -> Matrix -> World -> exn + ((Q * Q) * World);
  rng_choice : nat -> World -> nat * World
}.

(** The arguments of one [train_and_evaluate] call. *)
Record TrainArgs {E : Env} : Type := {
  tr_model : Model;
  tr_edge_index : EdgeIndex;
  tr_features : Matrix;
  tr_adj_target : Matrix;
  tr_true_adj : Matrix;
  tr_num_epochs : Z;
  tr_optimizer_lr : PyVal;
  tr_num_neurons : PyVal;
  tr_embedding_size : PyVal;
  tr_lr : PyVal;
  tr_heads : PyVal
}.

(** ** Runs: outside world, call trace, exceptions *)

(** One entry per call that left the driver, with its arguments and its
    outcome; [EvRaised] is an exception raised by the driver's own
    libraries (optuna, sklearn, dict lookup). *)
Inductive event {E : Env} : Type :=
| EvPreprocess (path : string) (out : exn + (Matrix * list string))
| EvNoisyAdj (expr : Matrix) (threshold noise_factor : Q) (out : exn + Matrix)
| EvAdj (expr : Matrix) (threshold : Q) (out : exn + Matrix)
| EvTrueAdj (path : string) (genes : list string) (out : exn + Matrix)
| EvGAT (args : GATArgs) (out : exn + Model)
| EvTrain (args : TrainArgs) (out : exn + Model)
| EvForward (m : Model) (ei : EdgeIndex) (x : Matrix) (out : exn + Matrix)
| EvEvaluate (t r : Matrix) (out : exn + Metrics)
| EvLogRun (row : RunRecord) (out : exn + unit)
| EvEPR (r t : Matrix) (out : exn + Q)
| EvOverlap (r t pcc : Matrix) (out : exn + (Q * Q))
| EvRaised (e : exn).

Definition outcome_exn {A : Type} (out : exn + A) : option exn :=
  match out with inl e => Some e | inr _ => None end.

(** The exception an event ended with, if any. *)
Definition event_exn {E : Env} (ev : event) : option exn :=
  match ev with
  | EvPreprocess _ out => outcome_exn out
  | EvNoisyAdj _ _ _ out => outcome_exn out
  | EvAdj _ _ out => outcome_exn out
  | EvTrueAdj _ _ out => outcome_exn out
  | EvGAT _ out => outcome_exn out
  | EvTrain _ out => outcome_exn out
  | EvForward _ _ _ out => outcome_exn out
  | EvEvaluate _ _ out => outcome_exn out
  | EvLogRun _ out => outcome_exn out
  | EvEPR _ _ out => outcome_exn out
  | EvOverlap _ _ _ out => outcome_exn out
  | EvRaised e => Some e
  end.

(** The trace is kept newest first.  [trial_params] is the [params] dict of
    the optuna trial that is running (one trial runs at a time). *)
Record state {E : Env} : Type := {
  world : World;
  trace : list event;
  trial_params : Dict
}.

Definition log {E : Env} (ev : event) (s : state) : state :=
  {| world := world s; trace := ev :: trace s;
     trial_params := trial_params s |}.

Definition set_world {E : Env} (w : World) (s : state) : state :=
  {| world := w; trace := trace s; trial_params := trial_params s |}.

Definition set_trial_params {E : Env} (d : Dict) (s : state) : state :=
  {| world := world s; trace := trace s; trial_params := d |}.

(** A computation of the driver: it ends with a value or with a raised
    exception, and leaves a state in both cases. *)
Definition M {E : Env} (A : Type) : Type := state -> (exn + A) * state.

Definition ret {E : Env} {A : Type} (a : A) : M A := fun s => (inr a, s).

Definition bind {E : Env} {A B : Type} (m : M A) (f : A -> M B) : M B :=
  fun s =>
    match m s with
    | (inl e, s') => (inl e, s')
    | (inr a, s') => f a s'
    end.

(** [raise e] inside the driver's libraries. *)
Definition raise {E : Env} {A : Type} (e : exn) : M A :=
  fun s => (inl e, log (EvRaised e) s).

(** [raise] of an exception that is already in flight (re-raise). *)
Definition reraise {E : Env} {A : Type} (e : exn) : M A :=
  fun s => (inl e, s).

(** [try: r = inr (m) except Exception as e: r = inl e] *)
Definition attempt {E : Env} {A : Type} (m : M A) : M (exn + A) :=
  fun s => let (r, s') := m s in (inr r, s').

(** A call of a collaborator that uses the outside world. *)
Definition call {E : Env} {A : Type}
  (f : World -> exn + (A * World)) (ev : exn + A -> event) : M A :=
  fun s =>
    match f (world s) with
    | inl e => (inl e, log (ev (inl e)) s)
    | inr (a, w) => (inr a, log (ev (inr a)) (set_world w s))
    end.

(** A call of a collaborator that is a function of its arguments. *)
Definition call_pure {E : Env} {A : Type}
  (r : exn + A) (ev : exn + A -> event) : M A :=
  fun s => (r, log (ev r) s).

(** A library function of the driver that may raise. *)
Definition lift_result {E : Env} {A : Type} (r : exn + A) : M A :=
  match r with
  | inl e => raise e
  | inr a => ret a
  end.

Definition get_trial_params {E : Env} : M Dict :=
  fun s => (inr (trial_params s), s).

Definition put_trial_params {E : Env} (d : Dict) : M unit :=
  fun s => (inr tt, set_trial_params d s).

(** A draw of the sampler's random generator: an index below [n]. *)
Definition rng_index {E : Env} (n : nat) : M nat :=
  fun s => let (i, w) := rng_choice n (world s) in
           (inr (i mod n)%nat, set_world w s).

Declare Scope driver_scope.
Delimit Scope driver_scope with driver.
Notation "x <- m ;; k" := (bind m (fun x => k))
  (at level 61, m at next level, right associativity) : driver_scope.
Notation "m ;;; k" := (bind m (fun _ => k))
  (at level 61, right associativity) : driver_scope.
Local Open Scope driver_scope.

(** ** optuna: grid sampler, trials and study

    The part of optuna that main.py drives: [GridSampler], [create_study],
    [Study.optimize], [Trial.suggest_categorical], [Study.best_trial].
    Trials run one after the other in one process. *)

Definition SearchSpace := list (string * list PyVal).

(** [sorted(search_space.items())] *)
Fixpoint insert_item (kv : string * list PyVal) (l : SearchSpace)
  : SearchSpace :=
  match l with
  | [] => [kv]
  | kv' :: rest =>
      if String.leb (fst kv) (fst kv') then kv :: l
      else kv' :: insert_item kv rest
  end.

Definition sorted_items (sp : SearchSpace) : SearchSpace :=
  fold_right insert_item [] sp.

(** [itertools.product] of the lists: the first list varies slowest. *)
Fixpoint product (ls : list (list PyVal)) : list (list PyVal) :=
  match ls with
  | [] => [[]]
  | l :: rest => flat_map (fun x => map (cons x) (product rest)) l
  end.

Record GridSampler : Type := {
  gs_search_space : SearchSpace;
  gs_param_names : list string;
  gs_all_grids : list (list PyVal);
  gs_n_min_trials : nat
}.

(** [GridSampler(search_space)] *)
Definition GridSampler_init (search_space : SearchSpace) : GridSampler :=
  let sp := sorted_items search_space in
  let grids := product (map snd sp) in
  {| gs_search_space := sp;
     gs_param_names := map fst sp;
     gs_all_grids := grids;
     gs_n_min_trials := length grids |}.

Inductive Direction : Type := MAXIMIZE | MINIMIZE.

Inductive TrialState : Type := COMPLETE | FAIL.

(** The running trial as the objective sees it. *)
Record Trial : Type := {
  number : nat;
  grid_id : nat;
  sampler : GridSampler
}.

(** A finished trial as the study stores it. *)
Record FrozenTrial : Type := {
  ft_number : nat;
  ft_grid_id : nat;
  ft_params : Dict;
  ft_state : TrialState;
  ft_value : option Q
}.

(** Trials are stored in the order they ran. *)
Record Study : Type := {
  study_direction : Direction;
  study_sampler : GridSampler;
  study_trials : list FrozenTrial;
  study_stop_flag : bool
}.

(** [optuna.create_study(direction=..., sampler=...)] *)
Definition create_study (direction : Direction) (g : GridSampler) : Study :=
  {| study_direction := direction; study_sampler := g;
     study_trials := []; study_stop_flag := false |}.

Fixpoint index_of (name : string) (names : list string) : option nat :=
  match names with
  | [] => None
  | n :: rest =>
      if String.eqb n name then Some O
      else option_map S (index_of name rest)
  end.

(** [GridSampler.sample_independent]: the value of the trial's grid point
    for [name]; [ValueError] when the name is not in the grid or the value
    is not one of the [choices] given by the objective. *)
Definition sample_independent (trial : Trial) (name : string)
  (choices : list PyVal) : exn + PyVal :=
  let g := sampler trial in
  match index_of name (gs_param_names g) with
  | None => inl (ValueError "parameter name not found in the given grid")
  | Some k =>
      match nth_error (gs_all_grids g) (grid_id trial) with
      | None => inl (IndexError "grid_id")
      | Some point =>
          match nth_error point k with
          | None => inl (IndexError "param index")
          | Some v =>
              if existsb (py_eqb v) choices then inr v
              else inl (ValueError "value not in choices")
          end
      end
  end.

(** [trial.suggest_categorical(name, choices)]: a parameter already
    suggested keeps its value; a new one is sampled and stored in
    [trial.params]. *)
Definition suggest_categorical {E : Env} (trial : Trial) (name : string)
  (choices : list PyVal) : M PyVal :=
  ps <- get_trial_params ;;
  match dict_get ps name with
  | Some v => ret v
  | None =>
      v <- lift_result (sample_independent trial name choices) ;;
      put_trial_params (dict_set ps name v) ;;;
      ret v
  end.

(** [GridSampler._get_unvisited_grid_ids]: every earlier trial is finished. *)
Definition unvisited_grid_ids (g : GridSampler) (trials : list FrozenTrial)
  : list nat :=
  filter (fun id => negb (existsb (Nat.eqb id) (map ft_grid_id trials)))
         (seq 0 (gs_n_min_trials g)).

(** [GridSampler.before_trial]: the generator picks one of the grid points
    no trial has taken; when none is left it picks among all of them. *)
Definition before_trial {E : Env} (study : Study) : M nat :=
  let g := study_sampler study in
  let unvisited := unvisited_grid_ids g (study_trials study) in
  let target_grids :=
    match unvisited with
    | [] => seq 0 (gs_n_min_trials g)
    | _ => unvisited
    end in
  match target_grids with
  | [] => raise (ValueError "a must be non-empty")
  | _ =>
      i <- rng_index (length target_grids) ;;
      ret (nth i target_grids O)
  end.

(** [GridSampler.after_trial]: the study is stopped once every grid point
    has been taken, the trial that just ended included. *)
Definition after_trial (study : Study) : Study :=
  match unvisited_grid_ids (study_sampler study) (study_trials study) with
  | [] =>
      {| study_direction := study_direction study;
         study_sampler := study_sampler study;
         study_trials := study_trials study;
         study_stop_flag := true |}
  | _ => study
  end.

Definition add_trial (study : Study) (t : FrozenTrial) : Study :=
  {| study_direction := study_direction study;
     study_sampler := study_sampler study;
     study_trials := study_trials study ++ [t];
     study_stop_flag := study_stop_flag study |}.

(** Exception classes, for the [catch] argument of [optimize]. *)
Inductive exn_class : Type :=
| CValueError | CKeyError | CConfigError | CDataError | CTrainingError
| CIndexError | CZeroDivisionError | CIOError.

Definition class_of (e : exn) : exn_class :=
  match e with
  | ValueError _ => CValueError
  | KeyError _ => CKeyError
  | ConfigError _ => CConfigError
  | DataError _ => CDataError
  | TrainingError _ => CTrainingError
  | IndexError _ => CIndexError
  | ZeroDivisionError _ => CZeroDivisionError
  | IOError _ => CIOError
  end.

Definition exn_class_eqb (a b : exn_class) : bool :=
  match a, b with
  | CValueError, CValueError | CKeyError, CKeyError
  | CConfigError, CConfigError | CDataError, CDataError
  | CTrainingError, CTrainingError | CIndexError, CIndexError
  | CZeroDivisionError, CZeroDivisionError | CIOError, CIOError => true
  | _, _ => false
  end.

(** [isinstance(e, catch)] *)
Definition isinstance (e : exn) (catch : list exn_class) : bool :=
  existsb (exn_class_eqb (class_of e)) catch.

(** [optuna.study._optimize._run_trial]: ask the sampler, run the objective,
    store the trial; an exception of the objective marks the trial failed
    and is raised again unless its class is in [catch]. *)
Definition run_trial {E : Env} (func : Trial -> M Q)
  (catch : list exn_class) (study : Study) : M Study :=
  gid <- before_trial study ;;
  let trial := {| number := length (study_trials study); grid_id := gid;
                  sampler := study_sampler study |} in
  put_trial_params [] ;;;
  r <- attempt (func trial) ;;
  ps <- get_trial_params ;;
  match r with
  | inr value =>
      let frozen := {| ft_number := number trial; ft_grid_id := gid;
                       ft_params := ps; ft_state := COMPLETE;
                       ft_value := Some value |} in
      ret (after_trial (add_trial study frozen))
  | inl e =>
      let frozen := {| ft_number := number trial; ft_grid_id := gid;
                       ft_params := ps; ft_state := FAIL;
                       ft_value := None |} in
      if isinstance e catch then ret (after_trial (add_trial study frozen))
      else reraise e
  end.

(** [_optimize_sequential]: the loop ends when the study is stopped or
    [n_trials] trials have run. *)
Fixpoint optimize_sequential {E : Env} (func : Trial -> M Q)
  (catch : list exn_class) (n_trials : nat) (study : Study) : M Study :=
  if study_stop_flag study then ret study
  else
    match n_trials with
    | O => ret study
    | S n =>
        study' <- run_trial func catch study ;;
        optimize_sequential func catch n study'
    end.

(** [study.optimize(func, n_trials=..., catch=...)] *)
Definition optimize {E : Env} (study : Study) (func : Trial -> M Q)
  (n_trials : nat) (catch : list exn_class) : M Study :=
  optimize_sequential func catch n_trials
    {| study_direction := study_direction study;
       study_sampler := study_sampler study;
       study_trials := study_trials study;
       study_stop_flag := false |}.

Definition Qlt_bool (a b : Q) : bool := negb (Qle_bool b a).

(** The storage keeps the best completed trial and replaces it only by a
    strictly better one. *)
Definition update_best (d : Direction) (best : option FrozenTrial)
  (t : FrozenTrial) : option FrozenTrial :=
  match ft_state t, ft_value t with
  | COMPLETE, Some v =>
      match best with
      | None => Some t
      | Some b =>
          match ft_value b with
          | None => Some t
          | Some bv =>
              match d with
              | MAXIMIZE => if Qlt_bool bv v then Some t else best
              | MINIMIZE => if Qlt_bool v bv then Some t else best
              end
          end
      end
  | _, _ => best
  end.

(** [study.best_trial] *)
Definition best_trial (study : Study) : exn + FrozenTrial :=
  match fold_left (update_best (study_direction study))
                  (study_trials study) None with
  | Some t => inr t
  | None => inl (ValueError "No trials are completed yet.")
  end.

(** [d[k]] *)
Definition getitem {E : Env} (d : Dict) (k : string) : M PyVal :=
  match dict_get d k with
  | Some v => ret v
  | None => raise (KeyError k)
  end.

(** ** Calls of the collaborators, as the driver makes them *)

Definition preprocess_data_call {E : Env} (path : string)
  : M (Matrix * list string) :=
  call (preprocess_data path) (EvPreprocess path).

Definition construct_adjacency_matrix_with_noise_call {E : Env}
  (expr : Matrix) (threshold noise_factor : Q) : M Matrix :=
  call (construct_adjacency_matrix_with_noise expr threshold noise_factor)
       (EvNoisyAdj expr threshold noise_factor).

Definition construct_adjacency_matrix_call {E : Env}
  (expr : Matrix) (threshold : Q) : M Matrix :=
  call_pure (construct_adjacency_matrix expr threshold)
            (EvAdj expr threshold).

Definition create_true_adjacency_matrix_call {E : Env}
  (path : string) (genes : list string) : M Matrix :=
  call (create_true_adjacency_matrix path genes) (EvTrueAdj path genes).

Definition GAT_VGAE_call {E : Env} (args : GATArgs) : M Model :=
  call (GAT_VGAE args) (EvGAT args).

(** [train_and_evaluate] updates the model it is given; the embedding
    returns the updated model. *)
Definition train_and_evaluate {E : Env} (a : TrainArgs) : M Model :=
  call (train_and_evaluate_ (tr_model a) (tr_edge_index a) (tr_features a)
          (tr_adj_target a) (tr_true_adj a) (tr_num_epochs a)
          (tr_optimizer_lr a) (tr_num_neurons a) (tr_embedding_size a)
          (tr_lr a) (tr_heads a))
       (EvTrain a).

(** [model(edge_index, expr_tensor).detach().cpu().numpy()] *)
Definition forward_call {E : Env} (m : Model) (ei : EdgeIndex) (x : Matrix)
  : M Matrix :=
  call (forward m ei x) (EvForward m ei x).

Definition evaluate_model_call {E : Env} (t r : Matrix) : M Metrics :=
  call (evaluate_model t r) (EvEvaluate t r).

Definition log_run_info_call {E : Env} (row : RunRecord) : M unit :=
  call (log_run_info row) (EvLogRun row).

Definition calculate_early_precision_rate_call {E : Env} (r t : Matrix)
  : M Q :=
  call (calculate_early_precision_rate r t) (EvEPR r t).

Definition calculate_whole_network_overlap_call {E : Env}
  (r t pcc : Matrix) : M (Q * Q) :=
  call (calculate_whole_network_overlap r t pcc) (EvOverlap r t pcc).

(** ** main.py *)

(** [a.shape[0]] and [a.shape[1]] *)
Definition shape0 (m : Matrix) : nat := length m.
Definition shape1 (m : Matrix) : nat := length (hd [] m).

(** The arrays prepared before a model is built.  [torch.FloatTensor] and
    [.to(device)] keep the content of an array. *)
Record Data : Type := {
  expr_data : Matrix;
  gene_names : list string;
  adj_matrix : Matrix;
  expr_tensor : Matrix;
  edge_index : EdgeIndex;
  adj_matrix_tensor : Matrix;
  true_adj_matrix : Matrix
}.

(** Lines 62-67, inside [objective]. *)
Definition objective_data {E : Env} (cfg : Config) : M Data :=
  eg <- preprocess_data_call (EXPR_FILE cfg) ;;
  let expr_data := fst eg in
  let gene_names := snd eg in
  adj_matrix <- construct_adjacency_matrix_with_noise_call
                  expr_data (THRESHOLD cfg) (NOISE_FACTOR cfg) ;;
  let expr_tensor := expr_data in
  let edge_index := edge_index_of adj_matrix in
  let adj_matrix_tensor := adj_matrix in
  true_adj_matrix <- create_true_adjacency_matrix_call
                       (NETWORK_FILE cfg) gene_names ;;
  ret {| expr_data := expr_data; gene_names := gene_names;
         adj_matrix := adj_matrix; expr_tensor := expr_tensor;
         edge_index := edge_index; adj_matrix_tensor := adj_matrix_tensor;
         true_adj_matrix := true_adj_matrix |}.

(** Lines 53-95. *)
Definition objective {E : Env} (cfg : Config) (trial : Trial) : M Q :=
  num_neurons <- suggest_categorical trial "num_neurons"
                   [VInt 16; VInt 32; VInt 64; VInt 128] ;;
  embedding_size <- suggest_categorical trial "embedding_size"
                      [VInt 8; VInt 16; VInt 32; VInt 64] ;;
  num_heads <- suggest_categorical trial "num_heads"
                 [VInt 2; VInt 4; VInt 8; VInt 16] ;;
  learning_rate <- suggest_categorical trial "learning_rate"
                     [VFloat (1 # 1000); VFloat (1 # 10000);
                      VFloat (5 # 1000); VFloat (5 # 10000)] ;;
  d <- objective_data cfg ;;
  model <- GAT_VGAE_call
             {| arg_num_features := shape1 (expr_data d);
                arg_num_neurons := num_neurons;
                arg_embedding_size := embedding_size;
                arg_num_heads := num_heads;
                arg_num_nodes := shape0 (adj_matrix d);
                arg_dropout := None |} ;;
  let optimizer_lr := learning_rate in
  model <- train_and_evaluate
             {| tr_model := model; tr_edge_index := edge_index d;
                tr_features := expr_tensor d;
                tr_adj_target := adj_matrix_tensor d;
                tr_true_adj := true_adj_matrix d;
                tr_num_epochs := NUM_EPOCHS cfg;
                tr_optimizer_lr := optimizer_lr;
                tr_num_neurons := num_neurons;
                tr_embedding_size := embedding_size;
                tr_lr := learning_rate; tr_heads := num_heads |} ;;
  reconstructed_adjacency_eval <-
    forward_call model (edge_index d) (expr_tensor d) ;;
  mt <- evaluate_model_call (true_adj_matrix d)
          reconstructed_adjacency_eval ;;
  log_run_info_call
    {| rr_run_id := cfg_run_id cfg; rr_num_neurons := num_neurons;
       rr_embedding_size := embedding_size;
       rr_learning_rate := learning_rate; rr_num_heads := num_heads;
       rr_metrics := mt; rr_dataset := DATASET cfg |} ;;;
  ret (roc_auc mt).

(** Lines 104-109. *)
Definition search_space : SearchSpace :=
  [("num_neurons"%string, [VInt 16; VInt 32; VInt 64; VInt 128]);
   ("embedding_size"%string, [VInt 8; VInt 16; VInt 32; VInt 64]);
   ("num_heads"%string, [VInt 2; VInt 4; VInt 8; VInt 16]);
   ("learning_rate"%string, [VFloat (1 # 1000); VFloat (5 # 10000)])].

(** Lines 110-112: the study after [study.optimize(objective, n_trials=256)]. *)
Definition run_study {E : Env} (cfg : Config) : M Study :=
  let sampler := GridSampler_init search_space in
  let study := create_study MAXIMIZE sampler in
  optimize study (objective cfg) 256 [].

(** Lines 103-115, the tuning branch. *)
Definition tune {E : Env} (cfg : Config) : M Dict :=
  study <- run_study cfg ;;
  best <- lift_result (best_trial study) ;;
  ret (ft_params best).

(** Lines 118-123, the fixed branch. *)
Definition predefined (cfg : Config) : Dict :=
  [("num_neurons"%string, cfg_num_neurons cfg);
   ("embedding_size"%string, cfg_embedding_size cfg);
   ("num_heads"%string, cfg_num_heads cfg);
   ("learning_rate"%string, cfg_learning_rate cfg)].

Definition choose_params {E : Env} (cfg : Config) : M Dict :=
  if TUNE_HYPERPARAMETERS cfg then tune cfg else ret (predefined cfg).

(** Lines 127-132, in the main block. *)
Definition main_data {E : Env} (cfg : Config) : M Data :=
  eg <- preprocess_data_call (EXPR_FILE cfg) ;;
  let expr_data := fst eg in
  let gene_names := snd eg in
  adj_matrix <- construct_adjacency_matrix_with_noise_call
                  expr_data (THRESHOLD cfg) (NOISE_FACTOR cfg) ;;
  let expr_tensor := expr_data in
  let edge_index := edge_index_of adj_matrix in
  let adj_matrix_tensor := adj_matrix in
  true_adj_matrix <- create_true_adjacency_matrix_call
                       (NETWORK_FILE cfg) gene_names ;;
  ret {| expr_data := expr_data; gene_names := gene_names;
         adj_matrix := adj_matrix; expr_tensor := expr_tensor;
         edge_index := edge_index; adj_matrix_tensor := adj_matrix_tensor;
         true_adj_matrix := true_adj_matrix |}.

(** What the final run prints and computes. *)
Record FinalReport : Type := {
  fr_metrics : Metrics;
  fr_accuracy : Q;
  fr_epr_final : Q;
  fr_pcc_overlap : Q;
  fr_pred_overlap : Q;
  fr_true_adj_matrix : Matrix;
  fr_reconstructed_adjacency : Matrix
}.

(** Lines 126-211. *)
Definition final_run {E : Env} (cfg : Config) (best_params : Dict)
  : M FinalReport :=
  d <- main_data cfg ;;
  num_neurons <- getitem best_params "num_neurons" ;;
  embedding_size <- getitem best_params "embedding_size" ;;
  num_heads <- getitem best_params "num_heads" ;;
  model <- GAT_VGAE_call
             {| arg_num_features := shape1 (expr_data d);
                arg_num_neurons := num_neurons;
                arg_embedding_size := embedding_size;
                arg_num_heads := num_heads;
                arg_num_nodes := shape0 (adj_matrix d);
                arg_dropout := Some (DROPOUT cfg) |} ;;
  optimizer_lr <- getitem best_params "learning_rate" ;;
  num_neurons <- getitem best_params "num_neurons" ;;
  embedding_size <- getitem best_params "embedding_size" ;;
  lr <- getitem best_params "learning_rate" ;;
  heads <- getitem best_params "num_heads" ;;
  model <- train_and_evaluate
             {| tr_model := model; tr_edge_index := edge_index d;
                tr_features := expr_tensor d;
                tr_adj_target := adj_matrix_tensor d;
                tr_true_adj := true_adj_matrix d;
                tr_num_epochs := NUM_EPOCHS cfg;
                tr_optimizer_lr := optimizer_lr;
                tr_num_neurons := num_neurons;
                tr_embedding_size := embedding_size;
                tr_lr := lr; tr_heads := heads |} ;;
  reconstructed_adjacency <-
    forward_call model (edge_index d) (expr_tensor d) ;;
  mt <- evaluate_model_call (true_adj_matrix d) reconstructed_adjacency ;;
  accuracy <- lift_result
                (final_accuracy (true_adj_matrix d)
                   reconstructed_adjacency) ;;
  epr_final <- calculate_early_precision_rate_call
                 reconstructed_adjacency (true_adj_matrix d) ;;
  pcc_matrix <- construct_adjacency_matrix_call
                  (expr_data d) (THRESHOLD cfg) ;;
  ov <- calculate_whole_network_overlap_call
          reconstructed_adjacency (true_adj_matrix d) pcc_matrix ;;
  ret {| fr_metrics := mt; fr_accuracy := accuracy;
         fr_epr_final := epr_final; fr_pcc_overlap := fst ov;
         fr_pred_overlap := snd ov;
         fr_true_adj_matrix := true_adj_matrix d;
         fr_reconstructed_adjacency := reconstructed_adjacency |}.

(** Lines 101-211. *)
Definition main {E : Env} (cfg : Config) : M FinalReport :=
  best_params <- choose_params cfg ;;
  final_run cfg best_params.

(** The events a run added to the trace, newest first. *)
Definition emitted {E : Env} {A : Type} (m : M A) (s : state)
  (d : list event) : Prop :=
  trace (snd (m s)) = d ++ trace s.

(** ** The evaluator's early precision rate *)

Module Evaluators.

(** The unordered pairs [i < j] of [n] nodes, in matrix order. *)
Definition upper_pairs (n : nat) : list (nat * nat) :=
  flat_map (fun i => map (pair i) (seq (S i) (n - S i))) (seq 0 n).

Definition is_edge (t : Matrix) (p : nat * nat) : bool :=
  Qeq_bool (entry t (fst p) (snd p)) 1.

(** The ground-truth edges, each unordered pair once. *)
Definition num_ground_truth_edges (t : Matrix) : nat :=
  length (filter (is_edge t) (upper_pairs (length t))).

(** [k = floor(kFraction * numGroundTruthEdges)] *)
Definition top_k_cutoff (k_fraction : Q) (t : Matrix) : Z :=
  Qfloor (k_fraction * inject_Z (Z.of_nat (num_ground_truth_edges t))).

Definition score (r : Matrix) (p : nat * nat) : Q := entry r (fst p) (snd p).

(** Stable sort by decreasing score: among equal scores the matrix order
    is kept. *)
Fixpoint insert_by_score (r : Matrix) (p : nat * nat)
  (l : list (nat * nat)) : list (nat * nat) :=
  match l with
  | [] => [p]
  | q :: rest =>
      if Qle_bool (score r q) (score r p) then p :: l
      else q :: insert_by_score r p rest
  end.

Definition sort_by_score (r : Matrix) (l : list (nat * nat))
  : list (nat * nat) :=
  fold_right (insert_by_score r) [] l.

(** A division that raises on a zero divisor, as Python's does. *)
Definition divide (a : Q) (b : Z) : exn + Q :=
  if Z.eqb b 0 then inl (ZeroDivisionError "division by zero")
  else inr (a / inject_Z b)%Q.

(** Modelled from the spec: [calculate_early_precision_rate] of the
    [evaluators] module, which main.py imports and calls but which is not
    among the sources.  Section 4.4: take the top
    [k = floor(kFraction * numGroundTruthEdges)] highest-scoring predicted
    edges, self-pairs excluded and each unordered pair counted once;
    EPR = (count of those present in the ground truth) / k; 0 when
    [k == 0]. *)
Definition early_precision_rate (reconstructed true_adj : Matrix)
  (k_fraction : Q) : exn + Q :=
  let k := top_k_cutoff k_fraction true_adj in
  if Z.eqb k 0 then inr 0%Q
  else
    let ranked :=
      sort_by_score reconstructed (upper_pairs (length reconstructed)) in
    let top := firstn (Z.to_nat k) ranked in
    let hits := length (filter (is_edge true_adj) top) in
    divide (inject_Z (Z.of_nat hits)) k.

End Evaluators.

(** ** The graph constructor, over the reals *)

Module Preprocessors.
Import Reals.
Local Open Scope R_scope.

Definition RMatrix := list (list R).

Definition rsum (l : list R) : R := fold_right Rplus 0 l.

(** Column [j] of the expression matrix: the samples of gene [j]. *)
Definition column (expr : RMatrix) (j : nat) : list R :=
  map (fun row => nth j row 0) expr.

Definition mean (x : list R) : R := rsum x / INR (length x).

Definition cov (x y : list R) : R :=
  rsum (map (fun p => (fst p - mean x) * (snd p - mean y)) (combine x y)).

(** Pearson correlation of two genes. *)
Definition pearson (x y : list R) : R :=
  cov x y / (sqrt (cov x x) * sqrt (cov y y)).

Definition num_genes (expr : RMatrix) : nat := length (hd [] expr).

Definition Rltb (a b : R) : bool := if Rlt_dec a b then true else false.

(** Entry [(i, j)]: 1 if [|corr(i, j)| > threshold] and [i <> j], else 0. *)
Definition adjacency_entry (expr : RMatrix) (threshold : R) (i j : nat)
  : R :=
  if Nat.eqb i j then 0
  else if Rltb threshold (Rabs (pearson (column expr i) (column expr j)))
       then 1 else 0.

Definition build (n : nat) (f : nat -> nat -> R) : RMatrix :=
  map (fun i => map (f i) (seq 0 n)) (seq 0 n).

(** Modelled from the spec: [construct_adjacency_matrix] of the
    [preprocessors] module, which main.py imports but which is not among
    the sources.  Section 4.1: pairwise Pearson correlation across genes
    (columns); entry 1 if [|corr| > threshold] and [i <> j], else 0;
    [DataError] with fewer than 2 genes. *)
Definition constructAdjacency (expr : RMatrix) (threshold : R)
  : exn + RMatrix :=
  if Nat.ltb (num_genes expr) 2 then inl (DataError "fewer than 2 genes")
  else inr (build (num_genes expr) (adjacency_entry expr threshold)).

(** Flipping 0 <-> 1. *)
Definition flip (x : R) : R := if Req_dec_T x 0 then 1 else 0.

Definition in_unit_interval (x : R) : bool :=
  if Rle_dec 0 x then (if Rle_dec x 1 then true else false) else false.

(** Modelled from the spec: [construct_adjacency_matrix_with_noise] of the
    [preprocessors] module, not among the sources.  Section 4.1: as
    [constructAdjacency], then each off-diagonal entry is flipped with a
    probability proportional to [noiseFactor], the flip of [(i, j)] being
    also the flip of [(j, i)]; [ConfigError] when [noiseFactor] or
    [threshold] is outside [0,1].  [u i j] is the uniform draw in [0,1)
    of the unordered pair [i < j], and [c >= 0] the factor of
    proportionality: the pair is flipped when [u i j < c * noiseFactor]. *)
Definition constructAdjacencyWithNoise (c : R) (u : nat -> nat -> R)
  (expr : RMatrix) (threshold noiseFactor : R) : exn + RMatrix :=
  if negb (in_unit_interval noiseFactor && in_unit_interval threshold) then
    inl (ConfigError "noise factor or threshold outside [0,1]")
  else
    match constructAdjacency expr threshold with
    | inl e => inl e
    | inr a =>
        inr (build (length a)
               (fun i j =>
                  let x := nth j (nth i a []) 0 in
                  if Nat.eqb i j then x
                  else if Rltb (u (Nat.min i j) (Nat.max i j))
                                (c * noiseFactor)
                       then flip x else x))
    end.

End Preprocessors.

(** ** The model's forward pass, over the reals *)

Module GATModel.
Import Reals.
Import Preprocessors.
Local Open Scope R_scope.

Definition dot (x y : list R) : R :=
  rsum (map (fun p => fst p * snd p) (combine x y)).

Definition sigmoid (x : R) : R := 1 / (1 + exp (- x)).

(** Inner-product decoder: elementwise sigmoid of [z . z^T]. *)
Definition decoder (z : RMatrix) : RMatrix :=
  map (fun zi => map (fun zj => sigmoid (dot zi zj)) z) z.

Fixpoint zip3 (f : R -> R -> R -> R) (a b c : list R) : list R :=
  match a, b, c with
  | x :: a', y :: b', w :: c' => f x y w :: zip3 f a' b' c'
  | _, _, _ => []
  end.

Fixpoint zip3_rows (f : R -> R -> R -> R) (a b c : RMatrix) : RMatrix :=
  match a, b, c with
  | x :: a', y :: b', w :: c' => zip3 f x y w :: zip3_rows f a' b' c'
  | _, _, _ => []
  end.

(** [z = mean + exp(0.5 * logvar) * noise] *)
Definition reparameterize (mu logvar noise : RMatrix) : RMatrix :=
  zip3_rows (fun m l e => m + exp (0.5 * l) * e) mu logvar noise.

(** Modelled from the spec: the forward pass of [GAT_VGAE] in the [model]
    module, which main.py imports but which is not among the sources.
    Section 4.2: the attention encoder and the variational head give a
    mean and a log-variance vector per node; in training the latent is
    the reparameterized sample, in inference it is the mean; the output
    is the inner-product decoder of the latent.  The encoder (a learned
    function the specification does not fix) is the argument [encode],
    which returns the pair (mean, logvar). *)
Definition forward_pass (encode : EdgeIndex -> RMatrix -> RMatrix * RMatrix)
  (training : bool) (noise : RMatrix) (edgeIndex : EdgeIndex)
  (features : RMatrix) : RMatrix :=
  let ml := encode edgeIndex features in
  let z := if training then reparameterize (fst ml) (snd ml) noise
           else fst ml in
  decoder z.

Definition rsquare (n : nat) (m : RMatrix) : Prop :=
  length m = n /\ Forall (fun row => length row = n) m.

End GATModel.

(** ** Statements about runs, traces and the search *)

(** Row-major order on pairs of naturals. *)
Definition lex_lt_nat (p q : nat * nat) : Prop :=
  (fst p < fst q)%nat \/ (fst p = fst q /\ (snd p < snd q)%nat).

Definition pair_to_Z (p : nat * nat) : Z * Z :=
  (Z.of_nat (fst p), Z.of_nat (snd p)).

(** No event of [d] ended with an exception. *)
Definition clean {E : Env} (d : list event) : Prop :=
  Forall (fun ev => event_exn ev = None) d.

(** The outcome of a run agrees with what its events say: a run that
    returns raised nothing, and a run that ends with [e] ends on the one
    event that raised, which raised [e]. *)
Definition outcome_matches {E : Env} {A : Type} (d : list event)
  (r : exn + A) : Prop :=
  match r with
  | inr _ => clean d
  | inl e => exists ev d', d = ev :: d' /\ event_exn ev = Some e /\ clean d'
  end.

(** Every event the computation adds satisfies [P], and no exception is
    lost or made up. *)
Definition run_ok {E : Env} {A : Type} (P : event -> Prop) (m : M A)
  : Prop :=
  forall s, exists d,
    trace (snd (m s)) = d ++ trace s /\ Forall P d /\
    outcome_matches d (fst (m s)).

(** A condition on the arguments of every [GAT_VGAE] construction. *)
Definition gat_pred {E : Env} (Q : GATArgs -> Prop) (ev : event) : Prop :=
  match ev with
  | EvGAT a _ => Q a
  | _ => True
  end.

(** [extends d t t']: the trace [t'] is [t] with the events [d] added. *)
Inductive extends {A : Type} : list A -> list A -> list A -> Prop :=
| extends_nil t : extends [] t t
| extends_cons e d t t' : extends d t t' -> extends (e :: d) t (e :: t').

Definition is_noisy {E : Env} (ev : event) : bool :=
  match ev with
  | EvNoisyAdj _ _ _ _ => true
  | _ => false
  end.

(** In the events [d] of one trial or of the final run: the edge index
    given to training and to the forward pass is the one of the adjacency
    matrix built in that same run, and one adjacency matrix is built. *)
Definition edge_index_fresh {E : Env} (d : list event) : Prop :=
  (forall a out, In (EvTrain a out) d ->
     tr_edge_index a = edge_index_of (tr_adj_target a) /\
     exists expr t nf, In (EvNoisyAdj expr t nf (inr (tr_adj_target a))) d) /\
  (forall m ei x out, In (EvForward m ei x out) d ->
     exists expr t nf adj, In (EvNoisyAdj expr t nf (inr adj)) d /\
                           ei = edge_index_of adj) /\
  (length (filter is_noisy d) <= 1)%nat.

(** The calls that prepare the data, oldest last: the expression file is
    read, the noisy adjacency is built from its data with the configured
    threshold and noise factor, the true adjacency is built from the network
    file and the gene names.  A call that raises is the last one. *)
Definition data_calls {E : Env} (cfg : Config) (d : list event) : Prop :=
  (exists out, d = [EvPreprocess (EXPR_FILE cfg) out]) \/
  (exists eg out,
     d = [EvNoisyAdj (fst eg) (THRESHOLD cfg) (NOISE_FACTOR cfg) out;
          EvPreprocess (EXPR_FILE cfg) (inr eg)]) \/
  (exists eg adj out,
     d = [EvTrueAdj (NETWORK_FILE cfg) (snd eg) out;
          EvNoisyAdj (fst eg) (THRESHOLD cfg) (NOISE_FACTOR cfg) (inr adj);
          EvPreprocess (EXPR_FILE cfg) (inr eg)]).

(** The values the search space declares for a parameter. *)
Definition declared (name : string) : list PyVal :=
  match find (fun kv => String.eqb (fst kv) name) search_space with
  | Some kv => snd kv
  | None => []
  end.

(** The [params] dict of a trial of [objective], in the order the
    objective asks for them. *)
Definition dict_of_params (n e h l : PyVal) : Dict :=
  [("num_neurons"%string, n); ("embedding_size"%string, e);
   ("num_heads"%string, h); ("learning_rate"%string, l)].

(** Every combination of declared values, once. *)
Definition grid_combinations : list Dict :=
  flat_map (fun e =>
    flat_map (fun l =>
      flat_map (fun h =>
        map (fun n => dict_of_params n e h l) (declared "num_neurons"))
        (declared "num_heads"))
      (declared "learning_rate"))
    (declared "embedding_size").

(** The sampler of main.py. *)
Definition the_sampler : GridSampler := GridSampler_init search_space.

(** A grid point, which lists the values by sorted parameter name. *)
Definition dict_of_point (point : list PyVal) : Dict :=
  match point with
  | [e; l; h; n] => dict_of_params n e h l
  | _ => []
  end.

Definition point_ok (point : list PyVal) : bool :=
  match point with
  | [e; l; h; n] =>
      existsb (py_eqb n) [VInt 16; VInt 32; VInt 64; VInt 128] &&
      existsb (py_eqb e) [VInt 8; VInt 16; VInt 32; VInt 64] &&
      existsb (py_eqb h) [VInt 2; VInt 4; VInt 8; VInt 16] &&
      existsb (py_eqb l) [VFloat (1 # 1000); VFloat (1 # 10000);
                          VFloat (5 # 1000); VFloat (5 # 10000)]
  | _ => false
  end.

(** What the trace shows of a completed trial with parameters [ps] and
    value [v]: a model was trained with these hyperparameters, the trained
    model was run forward, the result was evaluated, and [v] is the ROC-AUC
    of that evaluation. *)
Definition trial_evidence {E : Env} (ps : Dict) (v : Q) (d : list event)
  : Prop :=
  exists a model recon tadj mt,
    In (EvTrain a (inr model)) d /\
    In (EvForward model (tr_edge_index a) (tr_features a) (inr recon)) d /\
    In (EvEvaluate tadj recon (inr mt)) d /\
    v = roc_auc mt /\
    ps = dict_of_params (tr_num_neurons a) (tr_embedding_size a)
           (tr_heads a) (tr_lr a).

(** A stored trial of the search: it completed, on a point of the grid,
    with that point's parameters and with the value its evaluation gave. *)
Definition trial_good {E : Env} (d : list event) (t : FrozenTrial) : Prop :=
  ft_state t = COMPLETE /\ (ft_grid_id t < 128)%nat /\
  ft_params t =
    dict_of_point (nth (ft_grid_id t) (gs_all_grids the_sampler) []) /\
  exists v, ft_value t = Some v /\ trial_evidence (ft_params t) v d.

(** The invariant of the search loop; [d] are the events since it began. *)
Definition search_inv {E : Env} (d : list event) (study : Study) : Prop :=
  study_sampler study = the_sampler /\
  study_direction study = MAXIMIZE /\
  NoDup (map ft_grid_id (study_trials study)) /\
  Forall (trial_good d) (study_trials study) /\
  (study_stop_flag study = true <->
   unvisited_grid_ids the_sampler (study_trials study) = []).

Definition has_value (t : FrozenTrial) : Prop :=
  ft_state t = COMPLETE /\ exists v, ft_value t = Some v.

(** ** A two-gene run *)

Module Demo.

Definition expr : Matrix := [[1; 2]; [3; 5]; [2; 2]]%Q.
Definition adj : Matrix := [[0; 1]; [1; 0]]%Q.

(** A small deterministic environment: the model is the score its
    hyperparameters earn, which the forward pass puts on the diagonal and
    the evaluation reads back. *)
Definition env : Env := {|
  World := nat;
  Model := Q;
  preprocess_data := fun _ w => inr ((expr, ["g1"; "g2"]%string), w);
  construct_adjacency_matrix_with_noise :=
    fun _ _ _ w => inr (adj, S w);
  construct_adjacency_matrix := fun _ _ => inr adj;
  create_true_adjacency_matrix := fun _ _ w => inr (adj, w);
  GAT_VGAE := fun a w =>
    inr ((to_Q (arg_num_neurons a) + to_Q (arg_num_heads a)) / 1000, w)%Q;
  train_and_evaluate_ := fun m _ _ _ _ _ _ _ _ _ _ w => inr (m, w);
  forward := fun m _ _ w => inr ([[m; 3 # 4]; [3 # 4; m]]%Q, w);
  evaluate_model := fun _ r w =>
    inr ({| roc_auc := entry r 0 0; prec := 1; rec := 1; f1 := 1;
            epr := 1; acc := 1; num_gt_edges := 1; n_nodes := 2;
            overlap_count := 1 |}, w);
  log_run_info := fun _ w => inr (tt, w);
  calculate_early_precision_rate := fun _ _ w => inr (1%Q, w);
  calculate_whole_network_overlap := fun _ _ _ w => inr ((1%Q, 1%Q), w);
  rng_choice := fun n w => (w * 7 + 3, w)%nat
|}.

(** The same environment with a training that fails on a non-finite
    loss. *)
Definition failing_env : Env := {|
  World := nat;
  Model := Q;
  preprocess_data := fun _ w => inr ((expr, ["g1"; "g2"]%string), w);
  construct_adjacency_matrix_with_noise :=
    fun _ _ _ w => inr (adj, S w);
  construct_adjacency_matrix := fun _ _ => inr adj;
  create_true_adjacency_matrix := fun _ _ w => inr (adj, w);
  GAT_VGAE := fun a w =>
    inr ((to_Q (arg_num_neurons a) + to_Q (arg_num_heads a)) / 1000, w)%Q;
  train_and_evaluate_ := fun _ _ _ _ _ _ _ _ _ _ _ _ =>
    inl (TrainingError "non-finite loss");
  forward := fun m _ _ w => inr ([[m; 3 # 4]; [3 # 4; m]]%Q, w);
  evaluate_model := fun _ r w =>
    inr ({| roc_auc := entry r 0 0; prec := 1; rec := 1; f1 := 1;
            epr := 1; acc := 1; num_gt_edges := 1; n_nodes := 2;
            overlap_count := 1 |}, w);
  log_run_info := fun _ w => inr (tt, w);
  calculate_early_precision_rate := fun _ _ w => inr (1%Q, w);
  calculate_whole_network_overlap := fun _ _ _ w => inr ((1%Q, 1%Q), w);
  rng_choice := fun n w => (w * 7 + 3, w)%nat
|}.

Definition cfg (tune : bool) : Config := {|
  cfg_run_info_path := "run_info.csv";
  cfg_epoch_info_path := "epoch_info.csv";
  cfg_expr_file := "expr.csv";
  cfg_network_file := "network.csv";
  cfg_dataset := "demo";
  cfg_num_neurons := VInt 32;
  cfg_embedding_size := VInt 16;
  cfg_num_heads := VInt 4;
  cfg_learning_rate := VFloat (1 # 1000);
  cfg_num_epochs := 1;
  cfg_threshold := 1 # 2;
  cfg_noise_factor := 0;
  cfg_dropout := None;
  cfg_k_fraction := None;
  cfg_tune_hyperparameters := tune;
  cfg_run_id := "demo-run"
|}.

Definition start : @state env :=
  @Build_state env (0%nat : @World env) [] [].

Definition failing_start : @state failing_env :=
  @Build_state failing_env (0%nat : @World failing_env) [] [].

Definition failed_report : FinalReport := {|
  fr_metrics := {| roc_auc := 0; prec := 0; rec := 0; f1 := 0; epr := 0;
                   acc := 0; num_gt_edges := 0; n_nodes := 0;
                   overlap_count := 0 |};
  fr_accuracy := 0; fr_epr_final := 0; fr_pcc_overlap := 0;
  fr_pred_overlap := 0; fr_true_adj_matrix := [];
  fr_reconstructed_adjacency := []
|}.

(** The report of the run with the predefined hyperparameters. *)
Definition report : FinalReport :=
  Eval vm_compute in
    match fst (@main env (cfg false) start) with
    | inr r => r
    | inl _ => failed_report
    end.

(** The study of the run in tuning mode. *)
Definition study : Study :=
  Eval vm_compute in
    match fst (@run_study env (cfg true) start) with
    | inr st => st
    | inl _ => create_study MAXIMIZE the_sampler
    end.

End Demo.

(** ** Statements about whole runs *)

(** A property of the events of a run that holds of no event, of a lone
    exception of the driver's libraries, and of two runs in sequence
    when it holds of each. *)
Definition additive {E : Env} (L : list event -> Prop) : Prop :=
  L [] /\ (forall e, L [EvRaised e]) /\
  (forall d1 d2, L d1 -> L d2 -> L (d2 ++ d1)).

(** The events the computation adds satisfy [L], from every state. *)
Definition emits {E : Env} {A : Type} (L : list event -> Prop) (m : M A)
  : Prop :=
  forall s, exists d, emitted m s d /\ L d.

(** What a call site fixes from the configuration alone. *)
Definition configured_call {E : Env} (cfg : Config) (ev : event) : Prop :=
  match ev with
  | EvPreprocess path _ => path = EXPR_FILE cfg
  | EvNoisyAdj _ t nf _ => t = THRESHOLD cfg /\ nf = NOISE_FACTOR cfg
  | EvAdj _ t _ => t = THRESHOLD cfg
  | EvTrueAdj path _ _ => path = NETWORK_FILE cfg
  | EvTrain a _ =>
      tr_num_epochs a = NUM_EPOCHS cfg /\ tr_optimizer_lr a = tr_lr a
  | EvLogRun row _ =>
      rr_run_id row = cfg_run_id cfg /\ rr_dataset row = DATASET cfg
  | _ => True
  end.

(** How the calls around a model hang together: a training is given the
    model a [GAT_VGAE] call of the run returned, built with the
    hyperparameters the training is labelled with and sized after the
    arrays the training is given; a forward pass runs a trained model on
    the inputs of its training; an evaluation compares the output of a
    forward pass with the truth given to the training. *)
Definition model_wiring {E : Env} (d : list event) : Prop :=
  (forall a out, In (EvTrain a out) d ->
     tr_edge_index a = edge_index_of (tr_adj_target a) /\
     exists g, In (EvGAT g (inr (tr_model a))) d /\
       arg_num_neurons g = tr_num_neurons a /\
       arg_embedding_size g = tr_embedding_size a /\
       arg_num_heads g = tr_heads a /\
       arg_num_nodes g = shape0 (tr_adj_target a) /\
       arg_num_features g = shape1 (tr_features a)) /\
  (forall m ei x out, In (EvForward m ei x out) d ->
     exists a, In (EvTrain a (inr m)) d /\
               ei = tr_edge_index a /\ x = tr_features a) /\
  (forall t r out, In (EvEvaluate t r out) d ->
     exists m a,
       In (EvTrain a (inr m)) d /\
       In (EvForward m (tr_edge_index a) (tr_features a) (inr r)) d /\
       t = tr_true_adj a).

(** Every logged row reports the metrics an evaluation of the run
    returned and the hyperparameters of a training of the run. *)
Definition log_wiring {E : Env} (d : list event) : Prop :=
  forall row out, In (EvLogRun row out) d ->
    exists t r a model,
      In (EvEvaluate t r (inr (rr_metrics row))) d /\
      In (EvTrain a (inr model)) d /\
      rr_num_neurons row = tr_num_neurons a /\
      rr_embedding_size row = tr_embedding_size a /\
      rr_num_heads row = tr_heads a /\
      rr_learning_rate row = tr_lr a.

Definition is_log {E : Env} (ev : event) : bool :=
  match ev with
  | EvLogRun _ _ => true
  | _ => false
  end.

Definition is_raised {E : Env} (ev : event) : bool :=
  match ev with
  | EvRaised _ => true
  | _ => false
  end.

(** The three together. *)
Definition run_facts {E : Env} (cfg : Config) (d : list event) : Prop :=
  Forall (configured_call cfg) d /\ model_wiring d /\ log_wiring d.

(** No event is an exception of the driver's own libraries. *)
Definition no_raised {E : Env} (d : list event) : Prop :=
  Forall (fun ev => is_raised ev = false) d.

(** The events of a trial that completed, newest first: the eight calls,
    each with the arguments the source gives it and a result. *)
Definition trial_calls {E : Env} (cfg : Config) (d : list event) : Prop :=
  exists n e h l eg adj tadj model0 model recon mt,
    d = [EvLogRun {| rr_run_id := cfg_run_id cfg; rr_num_neurons := n;
                     rr_embedding_size := e; rr_learning_rate := l;
                     rr_num_heads := h; rr_metrics := mt;
                     rr_dataset := DATASET cfg |} (inr tt);
         EvEvaluate tadj recon (inr mt);
         EvForward model (edge_index_of adj) (fst eg) (inr recon);
         EvTrain {| tr_model := model0;
                    tr_edge_index := edge_index_of adj;
                    tr_features := fst eg; tr_adj_target := adj;
                    tr_true_adj := tadj; tr_num_epochs := NUM_EPOCHS cfg;
                    tr_optimizer_lr := l; tr_num_neurons := n;
                    tr_embedding_size := e; tr_lr := l; tr_heads := h |}
                 (inr model);
         EvGAT {| arg_num_features := shape1 (fst eg);
                  arg_num_neurons := n; arg_embedding_size := e;
                  arg_num_heads := h; arg_num_nodes := shape0 adj;
                  arg_dropout := None |} (inr model0);
         EvTrueAdj (NETWORK_FILE cfg) (snd eg) (inr tadj);
         EvNoisyAdj (fst eg) (THRESHOLD cfg) (NOISE_FACTOR cfg) (inr adj);
         EvPreprocess (EXPR_FILE cfg) (inr eg)].

(** The configuration with other values for the keys the driver reads
    but passes to no call. *)
Definition with_unused (cfg : Config) (run_info_path epoch_info_path : string)
  (k_fraction : option Q) : Config :=
  {| cfg_run_info_path := run_info_path;
     cfg_epoch_info_path := epoch_info_path;
     cfg_expr_file := cfg_expr_file cfg;
     cfg_network_file := cfg_network_file cfg;
     cfg_dataset := cfg_dataset cfg;
     cfg_num_neurons := cfg_num_neurons cfg;
     cfg_embedding_size := cfg_embedding_size cfg;
     cfg_num_heads := cfg_num_heads cfg;
     cfg_learning_rate := cfg_learning_rate cfg;
     cfg_num_epochs := cfg_num_epochs cfg;
     cfg_threshold := cfg_threshold cfg;
     cfg_noise_factor := cfg_noise_factor cfg;
     cfg_dropout := cfg_dropout cfg;
     cfg_k_fraction := k_fraction;
     cfg_tune_hyperparameters := cfg_tune_hyperparameters cfg;
     cfg_run_id := cfg_run_id cfg |}.

(** The configuration with another dropout. *)
Definition with_dropout (cfg : Config) (dropout : option Q) : Config :=
  {| cfg_run_info_path := cfg_run_info_path cfg;
     cfg_epoch_info_path := cfg_epoch_info_path cfg;
     cfg_expr_file := cfg_expr_file cfg;
     cfg_network_file := cfg_network_file cfg;
     cfg_dataset := cfg_dataset cfg;
     cfg_num_neurons := cfg_num_neurons cfg;
     cfg_embedding_size := cfg_embedding_size cfg;
     cfg_num_heads := cfg_num_heads cfg;
     cfg_learning_rate := cfg_learning_rate cfg;
     cfg_num_epochs := cfg_num_epochs cfg;
     cfg_threshold := cfg_threshold cfg;
     cfg_noise_factor := cfg_noise_factor cfg;
     cfg_dropout := dropout;
     cfg_k_fraction := cfg_k_fraction cfg;
     cfg_tune_hyperparameters := cfg_tune_hyperparameters cfg;
     cfg_run_id := cfg_run_id cfg |}.

(** The configuration with other predefined hyperparameters. *)
Definition with_predefined (cfg : Config) (n e h l : PyVal) : Config :=
  {| cfg_run_info_path := cfg_run_info_path cfg;
     cfg_epoch_info_path := cfg_epoch_info_path cfg;
     cfg_expr_file := cfg_expr_file cfg;
     cfg_network_file := cfg_network_file cfg;
     cfg_dataset := cfg_dataset cfg;
     cfg_num_neurons := n;
     cfg_embedding_size := e;
     cfg_num_heads := h;
     cfg_learning_rate := l;
     cfg_num_epochs := cfg_num_epochs cfg;
     cfg_threshold := cfg_threshold cfg;
     cfg_noise_factor := cfg_noise_factor cfg;
     cfg_dropout := cfg_dropout cfg;
     cfg_k_fraction := cfg_k_fraction cfg;
     cfg_tune_hyperparameters := cfg_tune_hyperparameters cfg;
     cfg_run_id := cfg_run_id cfg |}.

(** [m[i][j] == m[j][i]] for all indices. *)
Definition symmetric_matrix (m : Matrix) : Prop :=
  forall i j, (entry m i j == entry m j i)%Q.

Definition is_one (x : Q) : bool := Qeq_bool x 1.

(** The report of the two-gene run in tuning mode. *)
Definition demo_tuned_report : FinalReport :=
  Eval vm_compute in
    match fst (@main Demo.env (Demo.cfg true) Demo.start) with
    | inr r => r
    | inl _ => Demo.failed_report
    end.

(** * Properties *)

(** ** Small runs *)

Example edge_index_of_example :
  edge_index_of [[0; 1; 1]; [1; 0; 0]; [2 # 2; 0; 1 # 2]]%Q
  = ([0; 0; 1; 2], [1; 2; 0; 0]).
Proof. reflexivity. Qed.

Example final_accuracy_example :
  final_accuracy [[0; 1]; [1; 0]]%Q [[1 # 2; 6 # 10]; [4 # 10; 9 # 10]]%Q
  = inr (2 # 4)%Q.
Proof. reflexivity. Qed.

Example final_accuracy_shape_mismatch :
  final_accuracy [[0; 1]; [1; 0]]%Q [[1 # 2; 6 # 10]]%Q
  = inl (ValueError "inconsistent numbers of samples").
Proof. reflexivity. Qed.

Example early_precision_rate_example :
  Evaluators.early_precision_rate
    [[0; 9 # 10; 1 # 10]; [9 # 10; 0; 8 # 10]; [1 # 10; 8 # 10; 0]]%Q
    [[0; 1; 0]; [1; 0; 1]; [0; 1; 0]]%Q 1
  = inr (2 # 2)%Q.
Proof. reflexivity. Qed.

Example early_precision_rate_small_fraction :
  Evaluators.early_precision_rate
    [[0; 9 # 10; 1 # 10]; [9 # 10; 0; 8 # 10]; [1 # 10; 8 # 10; 0]]%Q
    [[0; 1; 0]; [1; 0; 1]; [0; 1; 0]]%Q (1 # 10)
  = inr 0%Q.
Proof. reflexivity. Qed.

Example grid_has_128_points :
  length grid_combinations = 128%nat /\
  gs_param_names the_sampler
  = ["embedding_size"; "learning_rate"; "num_heads"; "num_neurons"]%string.
Proof. split; reflexivity. Qed.

(** The two-gene search selects the first trial that reached the best
    value, one with 128 neurons and 16 heads. *)
Example demo_best_params :
  fst (@choose_params Demo.env (Demo.cfg true) Demo.start)
  = inr (dict_of_params (VInt 128) (VInt 64) (VInt 16)
           (VFloat (5 # 10000))).
Proof. vm_compute. reflexivity. Qed.

(** A training failure in the first trial ends the search, and the run,
    with that failure; one trial was started and nothing was logged. *)
Example demo_training_failure :
  fst (@main Demo.failing_env (Demo.cfg true) Demo.failing_start)
  = inl (TrainingError "non-finite loss") /\
  length (trace (snd (@main Demo.failing_env (Demo.cfg true)
                        Demo.failing_start))) = 5%nat /\
  fst (@main Demo.failing_env (Demo.cfg false) Demo.failing_start)
  = inl (TrainingError "non-finite loss").
Proof. vm_compute. repeat split. Qed.

(** ** The edge index *)

Lemma row_where_In (i j : nat) (row : list Q) (a b : nat) :
  In (a, b) (row_where i j row) <->
  a = i /\ (j <= b)%nat /\
  exists x, nth_error row (b - j) = Some x /\ (x == 1)%Q.
Proof.
  revert j. induction row as [|y rest IH]; intros j; simpl.
  - split; [tauto|]. intros (_ & _ & x & H & _).
    destruct (b - j)%nat; discriminate.
  - assert (Hrest : In (a, b) (row_where i (S j) rest) <->
              a = i /\ (j < b)%nat /\
              exists x, nth_error (y :: rest) (b - j) = Some x /\ (x == 1)%Q).
    { rewrite IH. split.
      - intros (-> & Hle & x & Hx & H1). repeat split; [lia|].
        exists x. split; [|exact H1].
        replace (b - j)%nat with (S (b - S j)) by lia. exact Hx.
      - intros (-> & Hlt & x & Hx & H1). repeat split; [lia|].
        exists x. split; [|exact H1].
        replace (b - j)%nat with (S (b - S j)) in Hx by lia. exact Hx. }
    destruct (Qeq_bool y 1) eqn:Hy.
    + simpl. rewrite Hrest. split.
      * intros [Heq | (-> & Hlt & x & Hx & H1)].
        -- inversion Heq; subst. repeat split; [lia|].
           exists y. rewrite Nat.sub_diag. split; [reflexivity|].
           apply Qeq_bool_iff; exact Hy.
        -- repeat split; [lia|]. exists x. tauto.
      * intros (-> & Hle & x & Hx & H1).
        destruct (Nat.eq_dec j b) as [->|Hne]; [left; reflexivity|].
        right. repeat split; [lia|]. exists x. tauto.
    + rewrite Hrest. split.
      * intros (-> & Hlt & x & Hx & H1). repeat split; [lia|].
        exists x. tauto.
      * intros (-> & Hle & x & Hx & H1).
        destruct (Nat.eq_dec j b) as [->|Hne].
        -- rewrite Nat.sub_diag in Hx. simpl in Hx. inversion Hx; subst.
           apply Qeq_bool_iff in H1. congruence.
        -- repeat split; [lia|]. exists x. tauto.
Qed.

Lemma mat_where_In (i : nat) (m : Matrix) (a b : nat) :
  In (a, b) (mat_where i m) <->
  (i <= a)%nat /\
  exists row x, nth_error m (a - i) = Some row /\
                nth_error row b = Some x /\ (x == 1)%Q.
Proof.
  revert i. induction m as [|r rest IH]; intros i; simpl.
  - split; [tauto|]. intros (_ & row & x & H & _).
    destruct (a - i)%nat; discriminate.
  - rewrite in_app_iff, row_where_In, IH. split.
    + intros [(-> & _ & x & Hx & H1) | (Hle & row & x & Hr & Hx & H1)].
      * split; [lia|]. exists r, x. rewrite Nat.sub_diag.
        rewrite Nat.sub_0_r in Hx. auto.
      * split; [lia|]. exists row, x.
        replace (a - i)%nat with (S (a - S i)) by lia. auto.
    + intros (Hle & row & x & Hr & Hx & H1).
      destruct (Nat.eq_dec i a) as [->|Hne].
      * left. rewrite Nat.sub_diag in Hr. simpl in Hr.
        inversion Hr; subst. repeat split; [lia|].
        exists x. rewrite Nat.sub_0_r. auto.
      * right. split; [lia|]. exists row, x.
        replace (a - i)%nat with (S (a - S i)) in Hr by lia. auto.
Qed.

Lemma row_where_sorted (i j : nat) (row : list Q) :
  StronglySorted lex_lt_nat (row_where i j row).
Proof.
  revert j. induction row as [|y rest IH]; intros j; simpl.
  - constructor.
  - destruct (Qeq_bool y 1); [|apply IH].
    constructor; [apply IH|].
    apply Forall_forall. intros [a b] Hin.
    apply row_where_In in Hin. destruct Hin as (-> & Hle & _).
    right. simpl. lia.
Qed.

Lemma StronglySorted_app {A : Type} (R : A -> A -> Prop) (l1 l2 : list A) :
  StronglySorted R l1 -> StronglySorted R l2 ->
  (forall x y, In x l1 -> In y l2 -> R x y) ->
  StronglySorted R (l1 ++ l2).
Proof.
  induction l1 as [|a l1 IH]; intros H1 H2 H; simpl; [exact H2|].
  inversion H1; subst. constructor.
  - apply IH; auto. intros x y Hx Hy. apply H; [right|]; assumption.
  - apply Forall_app. split; [assumption|].
    apply Forall_forall. intros y Hy. apply H; [left; reflexivity|exact Hy].
Qed.

Lemma mat_where_sorted (i : nat) (m : Matrix) :
  StronglySorted lex_lt_nat (mat_where i m).
Proof.
  revert i. induction m as [|r rest IH]; intros i; simpl.
  - constructor.
  - apply StronglySorted_app; [apply row_where_sorted|apply IH|].
    intros [a b] [c d] Hx Hy.
    apply row_where_In in Hx. apply mat_where_In in Hy.
    destruct Hx as (-> & _). destruct Hy as (Hle & _).
    left. simpl. lia.
Qed.

Lemma edge_pairs_edge_index_of (m : Matrix) :
  edge_pairs (edge_index_of m) = map pair_to_Z (mat_where 0 m).
Proof.
  unfold edge_pairs, edge_index_of, np_where_eq1. simpl.
  induction (mat_where 0 m) as [|p l IH]; simpl; [reflexivity|].
  rewrite IH. reflexivity.
Qed.

Lemma StronglySorted_map {A B : Type} (R : A -> A -> Prop)
  (R' : B -> B -> Prop) (f : A -> B) (l : list A) :
  (forall x y, R x y -> R' (f x) (f y)) ->
  StronglySorted R l -> StronglySorted R' (map f l).
Proof.
  intros Hf. induction 1 as [|a l Hs IH Hall]; simpl; constructor.
  - exact IH.
  - apply Forall_map. eapply Forall_impl; [|exact Hall].
    intros y Hy. apply Hf. exact Hy.
Qed.

Lemma edge_index_membership (m : Matrix) (i j : nat) :
  In (Z.of_nat i, Z.of_nat j) (edge_pairs (edge_index_of m)) <->
  exists row x, nth_error m i = Some row /\
                nth_error row j = Some x /\ (x == 1)%Q.
Proof.
  rewrite edge_pairs_edge_index_of, in_map_iff. split.
  - intros ([a b] & Heq & Hin). unfold pair_to_Z in Heq. simpl in Heq.
    inversion Heq.
    apply Nat2Z.inj in H0. apply Nat2Z.inj in H1. subst.
    apply mat_where_In in Hin. rewrite Nat.sub_0_r in Hin. tauto.
  - intros H. exists (i, j). split; [reflexivity|].
    apply mat_where_In. rewrite Nat.sub_0_r. split; [lia|exact H].
Qed.

Lemma edge_index_sorted (m : Matrix) :
  StronglySorted lex_lt (edge_pairs (edge_index_of m)).
Proof.
  rewrite edge_pairs_edge_index_of.
  apply StronglySorted_map with (R := lex_lt_nat); [|apply mat_where_sorted].
  intros [a b] [c d]. unfold lex_lt_nat, lex_lt, pair_to_Z. simpl. lia.
Qed.

Lemma edge_index_rows (m : Matrix) :
  length (fst (edge_index_of m)) = length (snd (edge_index_of m)) /\
  forall p, In p (edge_pairs (edge_index_of m)) ->
            exists i j, p = (Z.of_nat i, Z.of_nat j).
Proof.
  split.
  - unfold edge_index_of, np_where_eq1. simpl.
    rewrite !length_map. reflexivity.
  - intros p. rewrite edge_pairs_edge_index_of, in_map_iff.
    intros ([a b] & <- & _). exists a, b. reflexivity.
Qed.

(** ** The accuracy *)

Lemma count_matches_app (a a' b b' : list Q) :
  length a = length b ->
  count_matches (a ++ a') (b ++ b') =
  (count_matches a b + count_matches a' b')%nat.
Proof.
  revert b. induction a as [|x a IH]; intros [|y b] Hlen; simpl in *;
    try discriminate; [reflexivity|].
  rewrite IH by lia. lia.
Qed.

Lemma sum_nat_map_ext {A : Type} (f g : A -> nat) (l : list A) :
  (forall x, In x l -> f x = g x) ->
  sum_nat (map f l) = sum_nat (map g l).
Proof.
  intros H. unfold sum_nat. f_equal. apply map_ext_in. exact H.
Qed.

Lemma sum_nat_seq_S (f : nat -> nat) (n : nat) :
  sum_nat (map f (seq 0 (S n))) =
  (f 0 + sum_nat (map (fun j => f (S j)) (seq 0 n)))%nat.
Proof.
  simpl. f_equal. rewrite <- seq_shift, map_map. reflexivity.
Qed.

Lemma binarize_threshold_label (p : Q) : binarize p = threshold_label p.
Proof.
  unfold binarize, threshold_label.
  destruct (Qlt_le_dec (1 # 2) p) as [Hlt | Hle].
  - destruct (Qle_bool p (1 # 2)) eqn:Hb; [|reflexivity].
    apply Qle_bool_iff in Hb. exfalso. exact (Qlt_not_le _ _ Hlt Hb).
  - apply Qle_bool_iff in Hle. rewrite Hle. reflexivity.
Qed.

Lemma count_matches_row (n : nat) (r q : list Q) :
  length r = n -> length q = n ->
  count_matches r (map binarize q) =
  sum_nat (map (fun j => if Qeq_bool (nth j r 0%Q)
                              (threshold_label (nth j q 0%Q))
                         then 1 else 0)%nat (seq 0 n)).
Proof.
  revert r q. induction n as [|n IH]; intros [|x r] [|y q] Hr Hq;
    simpl in Hr, Hq; try discriminate; [reflexivity|].
  rewrite sum_nat_seq_S. cbn [count_matches map nth]. f_equal.
  - rewrite binarize_threshold_label. reflexivity.
  - apply IH; lia.
Qed.

Lemma count_matches_matrix (n k : nat) (t p : Matrix) :
  length t = k -> length p = k ->
  Forall (fun row => length row = n) t ->
  Forall (fun row => length row = n) p ->
  count_matches (flatten t) (map binarize (flatten p)) =
  sum_nat (map (fun i => sum_nat (map (agrees t p i) (seq 0 n))) (seq 0 k)).
Proof.
  revert t p. induction k as [|k IH]; intros [|r t] [|q p] Ht Hp Hft Hfp;
    simpl in Ht, Hp; try discriminate; [reflexivity|].
  inversion Hft; subst. inversion Hfp; subst.
  rewrite sum_nat_seq_S. unfold flatten in *. cbn [concat].
  rewrite map_app, count_matches_app by (rewrite length_map; congruence).
  f_equal.
  - rewrite (count_matches_row (length r)) by congruence. reflexivity.
  - apply IH; auto.
Qed.

Lemma length_flatten_square (n : nat) (m : Matrix) :
  square n m -> length (flatten m) = (n * n)%nat.
Proof.
  intros [Hlen Hrows]. unfold flatten. subst n.
  induction m as [|r m IH]; simpl; [reflexivity|].
  inversion Hrows as [|? ? Hr Hm]; subst.
  rewrite length_app.
  assert (Hc : forall k, Forall (fun row : list Q => length row = k) m ->
                         length (concat m) = (length m * k)%nat).
  { clear. intros k H. induction H; simpl; [reflexivity|].
    rewrite length_app. lia. }
  rewrite (Hc _ Hm), Hr. simpl. lia.
Qed.

Lemma final_accuracy_fraction (n : nat) (t p : Matrix) :
  (0 < n)%nat -> square n t -> square n p ->
  final_accuracy t p = inr (spec_accuracy n t p).
Proof.
  intros Hn Ht Hp. unfold final_accuracy, accuracy_score.
  rewrite length_map, (length_flatten_square n t Ht),
    (length_flatten_square n p Hp), Nat.eqb_refl. simpl negb. cbv iota.
  destruct (n * n)%nat as [|k] eqn:Hk; [nia|].
  unfold spec_accuracy, spec_matches. rewrite Hk.
  destruct Ht as [Ht1 Ht2], Hp as [Hp1 Hp2].
  rewrite (count_matches_matrix n n t p) by assumption. reflexivity.
Qed.

(** ** Runs and their traces *)

Section RunOk.
Context {E : Env}.
Variable P : event -> Prop.

Lemma run_ok_ret {A : Type} (a : A) : run_ok P (ret a).
Proof.
  intros s. exists []. simpl. repeat split; constructor.
Qed.

Lemma run_ok_bind {A B : Type} (m : M A) (f : A -> M B) :
  run_ok P m -> (forall a, run_ok P (f a)) -> run_ok P (bind m f).
Proof.
  intros Hm Hf s. unfold bind.
  destruct (Hm s) as (d1 & Ht1 & HP1 & Ho1).
  destruct (m s) as [[e | a] s1]; simpl in *.
  - exists d1. auto.
  - destruct (Hf a s1) as (d2 & Ht2 & HP2 & Ho2).
    exists (d2 ++ d1). rewrite Ht2, Ht1, app_assoc.
    split; [reflexivity|]. split; [apply Forall_app; auto|].
    destruct (fst (f a s1)) as [e | b]; simpl in *.
    + destruct Ho2 as (ev & d' & -> & Hev & Hc).
      exists ev, (d' ++ d1). repeat split; auto.
      apply Forall_app; auto.
    + apply Forall_app; auto.
Qed.

Lemma run_ok_raise {A : Type} (e : exn) :
  P (EvRaised e) -> run_ok P (@raise E A e).
Proof.
  intros HP s. exists [EvRaised e]. simpl. repeat split.
  - constructor; [exact HP|constructor].
  - exists (EvRaised e), []. repeat split. constructor.
Qed.

Lemma run_ok_call {A : Type} (f : World -> exn + (A * World))
  (ev : exn + A -> event) :
  (forall out, P (ev out)) ->
  (forall out, event_exn (ev out) = outcome_exn out) ->
  run_ok P (call f ev).
Proof.
  intros HP Hex s. unfold call.
  destruct (f (world s)) as [e | [a w]]; simpl.
  - exists [ev (inl e)]. repeat split.
    + constructor; [apply HP|constructor].
    + exists (ev (inl e)), []. repeat split; [apply Hex|constructor].
  - exists [ev (inr a)]. repeat split.
    + constructor; [apply HP|constructor].
    + constructor; [apply Hex|constructor].
Qed.

Lemma run_ok_call_pure {A : Type} (r : exn + A) (ev : exn + A -> event) :
  (forall out, P (ev out)) ->
  (forall out, event_exn (ev out) = outcome_exn out) ->
  run_ok P (call_pure r ev).
Proof.
  intros HP Hex s. unfold call_pure. simpl.
  exists [ev r]. repeat split.
  - constructor; [apply HP|constructor].
  - destruct r as [e | a]; simpl.
    + exists (ev (inl e)), []. repeat split; [apply Hex|constructor].
    + constructor; [apply Hex|constructor].
Qed.

Lemma run_ok_lift_result {A : Type} (r : exn + A) :
  (forall e, P (EvRaised e)) -> run_ok P (lift_result r).
Proof.
  intros HP. destruct r; simpl; [apply run_ok_raise; apply HP|apply run_ok_ret].
Qed.

Lemma run_ok_get_trial_params : run_ok P get_trial_params.
Proof.
  intros s. exists []. simpl. repeat split; constructor.
Qed.

Lemma run_ok_put_trial_params (d : Dict) : run_ok P (put_trial_params d).
Proof.
  intros s. exists []. simpl. repeat split; constructor.
Qed.

Lemma run_ok_rng_index (n : nat) : run_ok P (rng_index n).
Proof.
  intros s. unfold rng_index. destruct (rng_choice n (world s)).
  exists []. simpl. repeat split; constructor.
Qed.

Lemma run_ok_getitem (d : Dict) (k : string) :
  (forall e, P (EvRaised e)) -> run_ok P (getitem d k).
Proof.
  intros HP. unfold getitem.
  destruct (dict_get d k); [apply run_ok_ret|apply run_ok_raise; apply HP].
Qed.

End RunOk.

Lemma run_ok_weaken {E : Env} {A : Type} (P P' : event -> Prop) (m : M A) :
  (forall ev, P ev -> P' ev) -> run_ok P m -> run_ok P' m.
Proof.
  intros H Hm s. destruct (Hm s) as (d & Ht & HP & Ho).
  exists d. repeat split; auto. eapply Forall_impl; eauto.
Qed.

Ltac run_ok_auto :=
  repeat first
    [ apply run_ok_ret
    | apply run_ok_bind; [|intros ?]
    | apply run_ok_get_trial_params
    | apply run_ok_put_trial_params
    | apply run_ok_rng_index
    | apply run_ok_getitem; intros; exact I
    | apply run_ok_lift_result; intros; exact I
    | apply run_ok_raise; exact I
    | apply run_ok_call; [intros; simpl; auto | intros; reflexivity]
    | apply run_ok_call_pure; [intros; simpl; auto | intros; reflexivity] ].

Section DriverRunOk.
Context {E : Env}.

Lemma suggest_categorical_run_ok (Q : GATArgs -> Prop) (trial : Trial)
  (name : string) (choices : list PyVal) :
  run_ok (gat_pred Q) (suggest_categorical trial name choices).
Proof.
  unfold suggest_categorical. run_ok_auto.
  destruct (dict_get a name); run_ok_auto.
Qed.

Lemma objective_data_run_ok (Q : GATArgs -> Prop) (cfg : Config) :
  run_ok (gat_pred Q) (objective_data cfg).
Proof.
  unfold objective_data, preprocess_data_call,
    construct_adjacency_matrix_with_noise_call,
    create_true_adjacency_matrix_call.
  run_ok_auto.
Qed.

Lemma main_data_run_ok (Q : GATArgs -> Prop) (cfg : Config) :
  run_ok (gat_pred Q) (main_data cfg).
Proof.
  unfold main_data, preprocess_data_call,
    construct_adjacency_matrix_with_noise_call,
    create_true_adjacency_matrix_call.
  run_ok_auto.
Qed.

Lemma objective_run_ok (cfg : Config) (trial : Trial) :
  run_ok (gat_pred (fun a => arg_dropout a = None)) (objective cfg trial).
Proof.
  unfold objective, GAT_VGAE_call, train_and_evaluate, forward_call,
    evaluate_model_call, log_run_info_call.
  repeat first
    [ apply suggest_categorical_run_ok
    | apply objective_data_run_ok
    | apply run_ok_bind; [|intros ?] ];
  run_ok_auto.
Qed.

Lemma final_run_run_ok (cfg : Config) (best_params : Dict) :
  run_ok (gat_pred (fun a => arg_dropout a = Some (DROPOUT cfg)))
         (final_run cfg best_params).
Proof.
  unfold final_run, GAT_VGAE_call, train_and_evaluate, forward_call,
    evaluate_model_call, calculate_early_precision_rate_call,
    construct_adjacency_matrix_call, calculate_whole_network_overlap_call.
  repeat first
    [ apply main_data_run_ok
    | apply run_ok_bind; [|intros ?] ];
  run_ok_auto.
Qed.

Lemma before_trial_run_ok (P : event -> Prop) (study : Study) :
  (forall e, P (EvRaised e)) -> run_ok P (before_trial study).
Proof.
  intros HP. unfold before_trial.
  destruct (match unvisited_grid_ids (study_sampler study)
                    (study_trials study) with
            | [] => seq 0 (gs_n_min_trials (study_sampler study))
            | _ :: _ => unvisited_grid_ids (study_sampler study)
                          (study_trials study)
            end).
  - apply run_ok_raise. apply HP.
  - apply run_ok_bind; [apply run_ok_rng_index|intros; apply run_ok_ret].
Qed.

(** Without a [catch], a trial that raises ends the run with what it
    raised. *)
Lemma run_trial_run_ok (P : event -> Prop) (func : Trial -> M Q)
  (study : Study) :
  (forall e, P (EvRaised e)) ->
  (forall trial, run_ok P (func trial)) ->
  run_ok P (run_trial func [] study).
Proof.
  intros HP Hf. unfold run_trial.
  apply run_ok_bind; [apply before_trial_run_ok; exact HP|intros gid].
  apply run_ok_bind; [apply run_ok_put_trial_params|intros _].
  set (trial := {| number := length (study_trials study); grid_id := gid;
                   sampler := study_sampler study |}).
  intros s. unfold bind, attempt, get_trial_params.
  destruct (Hf trial s) as (d & Ht & HPd & Ho).
  destruct (func trial s) as [[e | v] s1]; simpl in *.
  - exists d. auto.
  - exists d. auto.
Qed.

Lemma optimize_sequential_run_ok (P : event -> Prop) (func : Trial -> M Q)
  (n : nat) (study : Study) :
  (forall e, P (EvRaised e)) ->
  (forall trial, run_ok P (func trial)) ->
  run_ok P (optimize_sequential func [] n study).
Proof.
  intros HP Hf. revert study. induction n as [|n IH]; intros study; simpl.
  - destruct (study_stop_flag study); apply run_ok_ret.
  - destruct (study_stop_flag study); [apply run_ok_ret|].
    apply run_ok_bind; [apply run_trial_run_ok; assumption|].
    intros study'. apply IH.
Qed.

Lemma run_study_run_ok (cfg : Config) :
  run_ok (gat_pred (fun a => arg_dropout a = None)) (run_study cfg).
Proof.
  unfold run_study, optimize.
  apply optimize_sequential_run_ok; [intros; exact I|].
  apply objective_run_ok.
Qed.

Lemma tune_run_ok (cfg : Config) :
  run_ok (gat_pred (fun a => arg_dropout a = None)) (tune cfg).
Proof.
  unfold tune.
  apply run_ok_bind; [apply run_study_run_ok|intros study].
  run_ok_auto.
Qed.

Lemma main_run_ok (cfg : Config) : run_ok (fun _ => True) (main cfg).
Proof.
  unfold main, choose_params.
  apply run_ok_bind.
  - destruct (TUNE_HYPERPARAMETERS cfg); [|apply run_ok_ret].
    eapply run_ok_weaken; [|apply tune_run_ok]. intros; exact I.
  - intros bp. eapply run_ok_weaken; [|apply final_run_run_ok].
    intros; exact I.
Qed.

End DriverRunOk.

(** ** Path analysis of the straight-line parts *)

Lemma extends_app {A : Type} (d t t' : list A) :
  extends d t t' -> t' = d ++ t.
Proof. induction 1; simpl; congruence. Qed.

Ltac destruct_scrutinee :=
  match goal with
  | |- context [match ?x with _ => _ end] =>
      lazymatch x with
      | context [match _ with _ => _ end] => fail
      | _ => destruct x eqn:?
      end
  end.

Ltac state_simpl :=
  cbn [fst snd trace world trial_params log set_world set_trial_params].

Ltac exec := repeat (state_simpl; destruct_scrutinee); state_simpl.

Ltac unfold_driver :=
  unfold main, choose_params, final_run, main_data, objective,
    objective_data, suggest_categorical, get_trial_params,
    put_trial_params, preprocess_data_call,
    construct_adjacency_matrix_with_noise_call,
    create_true_adjacency_matrix_call, GAT_VGAE_call, train_and_evaluate,
    forward_call, evaluate_model_call, log_run_info_call,
    calculate_early_precision_rate_call, construct_adjacency_matrix_call,
    calculate_whole_network_overlap_call, bind, call, call_pure, getitem,
    lift_result, ret, raise.

Ltac give_delta :=
  eexists; split;
  [ apply extends_app; state_simpl;
    repeat first [apply extends_nil | eapply extends_cons] | ].

Ltac split_in :=
  repeat match goal with
         | H : _ \/ _ |- _ => destruct H
         | H : False |- _ => destruct H
         end;
  try discriminate.

Ltac find_in := cbn [In]; repeat first [left; reflexivity | right].

Ltac forget_equations :=
  repeat match goal with H : _ = _ |- _ => clear H end.

Section StraightLine.
Context {E : Env}.

Lemma objective_data_calls (cfg : Config) (s : state) :
  exists d, trace (snd (objective_data cfg s)) = d ++ trace s /\
            data_calls cfg d.
Proof.
  unfold_driver. exec; give_delta; unfold data_calls; eauto 6.
Qed.

Lemma objective_edge_index_fresh (cfg : Config) (trial : Trial) (s : state) :
  exists d, trace (snd (objective cfg trial s)) = d ++ trace s /\
            edge_index_fresh d.
Proof.
  unfold_driver. exec; give_delta; forget_equations;
    unfold edge_index_fresh; cbn [In filter is_noisy length];
    (split; [|split]); intros; try lia; split_in;
    match goal with
    | H : _ = _ |- _ => injection H as <- <-; intros; subst
    end;
    cbn [tr_edge_index tr_adj_target edge_index adj_matrix_tensor];
    try (split; [reflexivity|]);
    repeat eexists; find_in.
Qed.

Lemma final_run_edge_index_fresh (cfg : Config) (bp : Dict) (s : state) :
  exists d, trace (snd (final_run cfg bp s)) = d ++ trace s /\
            edge_index_fresh d.
Proof.
  unfold_driver. exec; give_delta; forget_equations;
    unfold edge_index_fresh; cbn [In filter is_noisy length];
    (split; [|split]); intros; try lia; split_in;
    match goal with
    | H : _ = _ |- _ => injection H as <- <-; intros; subst
    end;
    cbn [tr_edge_index tr_adj_target edge_index adj_matrix_tensor];
    try (split; [reflexivity|]);
    repeat eexists; find_in.
Qed.

End StraightLine.

Section Wiring.
Context {E : Env}.

Lemma final_run_overlap_baseline (cfg : Config) (bp : Dict) (s : state) :
  exists d, emitted (final_run cfg bp) s d /\
    (forall r t pcc out, In (EvOverlap r t pcc out) d ->
       exists eg adj,
         In (EvPreprocess (EXPR_FILE cfg) (inr eg)) d /\
         In (EvNoisyAdj (fst eg) (THRESHOLD cfg) (NOISE_FACTOR cfg)
               (inr adj)) d /\
         In (EvAdj (fst eg) (THRESHOLD cfg) (inr pcc)) d /\
         construct_adjacency_matrix (fst eg) (THRESHOLD cfg) = inr pcc) /\
    (forall rep, fst (final_run cfg bp s) = inr rep ->
       exists r t pcc ov, In (EvOverlap r t pcc (inr ov)) d).
Proof.
  unfold emitted. unfold_driver.
  exec; give_delta; cbn [In]; (split; [|intros; try discriminate]);
    intros; split_in;
    try match goal with
        | H : _ = _ :> event |- _ => injection H as <- <- <- <-
        end;
    cbn [expr_data] in *;
    try match goal with
        | H : construct_adjacency_matrix _ _ = inr _ |- exists _ _, _ =>
            do 2 eexists; repeat split;
            [find_in | find_in | find_in | exact H]
        end;
    do 4 eexists; find_in.
Qed.

Lemma objective_no_dropout (cfg : Config) (trial : Trial) (s : state) :
  exists d, emitted (objective cfg trial) s d /\
    (forall a out, In (EvGAT a out) d -> arg_dropout a = None) /\
    (forall v, fst (objective cfg trial s) = inr v ->
               exists a model, In (EvGAT a (inr model)) d).
Proof.
  unfold emitted. unfold_driver.
  exec; give_delta; forget_equations; cbn [In]; split; intros; split_in;
    try match goal with
        | H : _ = _ :> event |- _ => injection H as <- <-; reflexivity
        end;
    do 2 eexists; find_in.
Qed.

Lemma final_run_dropout (cfg : Config) (bp : Dict) (s : state) :
  exists d, emitted (final_run cfg bp) s d /\
    (forall a out, In (EvGAT a out) d ->
                   arg_dropout a = Some (DROPOUT cfg)) /\
    (forall rep, fst (final_run cfg bp s) = inr rep ->
                 exists a model, In (EvGAT a (inr model)) d).
Proof.
  unfold emitted. unfold_driver.
  exec; give_delta; forget_equations; cbn [In]; split; intros; split_in;
    try match goal with
        | H : _ = _ :> event |- _ => injection H as <- <-; reflexivity
        end;
    do 2 eexists; find_in.
Qed.

Lemma run_study_no_dropout (cfg : Config) (s : state) :
  exists d, emitted (run_study cfg) s d /\
    forall a out, In (EvGAT a out) d -> arg_dropout a = None.
Proof.
  destruct (run_study_run_ok cfg s) as (d & Ht & HP & _).
  exists d. split; [exact Ht|]. intros a out Hin.
  rewrite Forall_forall in HP. exact (HP _ Hin).
Qed.

Lemma outcome_matches_sound {A : Type} (d : list event) (r : exn + A) :
  outcome_matches d r ->
  (forall ev e, In ev d -> event_exn ev = Some e -> r = inl e) /\
  (forall e, r = inl e ->
             exists ev d', d = ev :: d' /\ event_exn ev = Some e).
Proof.
  destruct r as [e0 | a]; simpl.
  - intros (ev0 & d' & -> & Hev & Hc). split.
    + intros ev e [<- | Hin] He; [congruence|].
      unfold clean in Hc. rewrite Forall_forall in Hc.
      rewrite (Hc _ Hin) in He. discriminate.
    + intros e He. inversion He; subst. eauto.
  - intros Hc. split.
    + intros ev e Hin He. unfold clean in Hc. rewrite Forall_forall in Hc.
      rewrite (Hc _ Hin) in He. discriminate.
    + intros e He. discriminate.
Qed.

Lemma run_ok_propagates {A : Type} (P : event -> Prop) (m : M A) :
  run_ok P m ->
  forall s, exists d, emitted m s d /\
    (forall ev e, In ev d -> event_exn ev = Some e -> fst (m s) = inl e) /\
    (forall e, fst (m s) = inl e ->
               exists ev d', d = ev :: d' /\ event_exn ev = Some e).
Proof.
  intros H s. destruct (H s) as (d & Ht & _ & Ho).
  exists d. split; [exact Ht|]. apply outcome_matches_sound. exact Ho.
Qed.

End Wiring.

(** ** The grid search *)

Lemma the_sampler_names :
  gs_param_names the_sampler =
  ["embedding_size"; "learning_rate"; "num_heads"; "num_neurons"]%string.
Proof. reflexivity. Qed.

Lemma the_sampler_size :
  gs_n_min_trials the_sampler = 128%nat /\
  length (gs_all_grids the_sampler) = 128%nat.
Proof. split; reflexivity. Qed.

Lemma the_sampler_points_ok :
  forallb point_ok (gs_all_grids the_sampler) = true.
Proof. vm_compute. reflexivity. Qed.

Lemma the_sampler_combinations :
  map dict_of_point (gs_all_grids the_sampler) = grid_combinations.
Proof. vm_compute. reflexivity. Qed.

Lemma the_sampler_point (gid : nat) :
  (gid < 128)%nat ->
  exists e l h n,
    nth_error (gs_all_grids the_sampler) gid = Some [e; l; h; n] /\
    point_ok [e; l; h; n] = true.
Proof.
  intros Hlt.
  destruct (nth_error (gs_all_grids the_sampler) gid) as [point|] eqn:Hn.
  - assert (Hok : point_ok point = true).
    { pose proof the_sampler_points_ok as H.
      rewrite forallb_forall in H. apply H.
      eapply nth_error_In; eauto. }
    destruct point as [|e [|l [|h [|n [|]]]]]; try discriminate.
    eauto 6.
  - apply nth_error_None in Hn.
    rewrite (proj2 the_sampler_size) in Hn. lia.
Qed.

Lemma sample_independent_point (trial : Trial) (e l h n : PyVal) :
  sampler trial = the_sampler ->
  nth_error (gs_all_grids the_sampler) (grid_id trial) = Some [e; l; h; n] ->
  point_ok [e; l; h; n] = true ->
  sample_independent trial "num_neurons"
    [VInt 16; VInt 32; VInt 64; VInt 128] = inr n /\
  sample_independent trial "embedding_size"
    [VInt 8; VInt 16; VInt 32; VInt 64] = inr e /\
  sample_independent trial "num_heads"
    [VInt 2; VInt 4; VInt 8; VInt 16] = inr h /\
  sample_independent trial "learning_rate"
    [VFloat (1 # 1000); VFloat (1 # 10000);
     VFloat (5 # 1000); VFloat (5 # 10000)] = inr l.
Proof.
  intros Hs Hp Hok. unfold sample_independent.
  rewrite Hs, the_sampler_names, Hp. cbn [index_of String.eqb Ascii.eqb
    Bool.eqb option_map nth_error].
  unfold point_ok in Hok.
  apply andb_prop in Hok. destruct Hok as [Hok Hl].
  apply andb_prop in Hok. destruct Hok as [Hok Hh].
  apply andb_prop in Hok. destruct Hok as [Hn He].
  rewrite Hn, He, Hh, Hl. auto.
Qed.

Section Search.
Context {E : Env}.

Lemma bind_inr {A B : Type} (m : M A) (f : A -> M B) (s s1 : state) (a : A) :
  m s = (inr a, s1) -> bind m f s = f a s1.
Proof. intros H. unfold bind. rewrite H. reflexivity. Qed.

Lemma bind_success {A B : Type} (m : M A) (f : A -> M B) (s s' : state)
  (b : B) :
  bind m f s = (inr b, s') ->
  exists a s1, m s = (inr a, s1) /\ f a s1 = (inr b, s').
Proof.
  unfold bind. destruct (m s) as [[e | a] s1]; intros H;
    [discriminate|eauto].
Qed.

Lemma suggest_fresh (trial : Trial) (name : string) (choices : list PyVal)
  (v : PyVal) (s : state) :
  dict_get (trial_params s) name = None ->
  sample_independent trial name choices = inr v ->
  suggest_categorical trial name choices s =
  (inr v, set_trial_params (dict_set (trial_params s) name v) s).
Proof.
  intros Hg Hs. unfold suggest_categorical, bind, get_trial_params.
  rewrite Hg, Hs. reflexivity.
Qed.

(** A trial that starts with an empty [params] dict on a point of the grid
    and completes: its parameters are the point's, and its value is the
    ROC-AUC of the evaluation of the model it trained. *)
Lemma objective_on_grid_point (cfg : Config) (trial : Trial)
  (e l h n : PyVal) (s s' : state) (v : Q) :
  trial_params s = [] ->
  sampler trial = the_sampler ->
  nth_error (gs_all_grids the_sampler) (grid_id trial) = Some [e; l; h; n] ->
  point_ok [e; l; h; n] = true ->
  objective cfg trial s = (inr v, s') ->
  trial_params s' = dict_of_params n e h l /\
  exists d, trace s' = d ++ trace s /\
            trial_evidence (dict_of_params n e h l) v d.
Proof.
  intros Hps Hs Hp Hok.
  destruct (sample_independent_point trial e l h n Hs Hp Hok)
    as (Hn & He & Hh & Hl).
  unfold objective.
  erewrite bind_inr
    by (apply suggest_fresh;
        [cbn [trial_params set_trial_params]; rewrite Hps; reflexivity
        |exact Hn]).
  erewrite bind_inr
    by (apply suggest_fresh;
        [cbn [trial_params set_trial_params]; rewrite Hps; reflexivity
        |exact He]).
  erewrite bind_inr
    by (apply suggest_fresh;
        [cbn [trial_params set_trial_params]; rewrite Hps; reflexivity
        |exact Hh]).
  erewrite bind_inr
    by (apply suggest_fresh;
        [cbn [trial_params set_trial_params]; rewrite Hps; reflexivity
        |exact Hl]).
  cbn [trial_params set_trial_params]. rewrite Hps.
  cbn [dict_set String.eqb Ascii.eqb Bool.eqb].
  clear Hn He Hh Hl Hp Hok Hs.
  unfold_driver. exec; intros Heq; try discriminate.
  inversion Heq; subst; clear Heq. state_simpl.
  split; [reflexivity|]. give_delta.
  unfold trial_evidence.
  do 5 eexists. split; [find_in|]. split; [find_in|].
  split; [find_in|]. split; reflexivity.
Qed.

Lemma before_trial_success (study : Study) (s s1 : state) (gid : nat) :
  before_trial study s = (inr gid, s1) ->
  trace s1 = trace s /\
  (unvisited_grid_ids (study_sampler study) (study_trials study) <> [] ->
   In gid (unvisited_grid_ids (study_sampler study) (study_trials study))).
Proof.
  unfold before_trial.
  destruct (unvisited_grid_ids (study_sampler study) (study_trials study))
    as [|u us] eqn:Hu.
  - destruct (seq 0 (gs_n_min_trials (study_sampler study))) as [|x xs].
    + unfold raise. intros H. discriminate.
    + unfold bind, rng_index, ret.
      destruct (rng_choice _ (world s)) as [i w]. intros H.
      injection H as <- <-. split; [reflexivity|]. intros Hne.
      exfalso. apply Hne. reflexivity.
  - cbv beta iota.
    assert (Hlen : length (u :: us) <> 0%nat) by discriminate.
    remember (u :: us) as target eqn:Ht. clear Ht.
    unfold bind, rng_index, ret.
    destruct (rng_choice _ (world s)) as [i w]. intros H.
    injection H as <- <-. split; [reflexivity|]. intros _.
    apply nth_In. apply Nat.mod_upper_bound. exact Hlen.
Qed.

Lemma run_trial_success (func : Trial -> M Q) (study study' : Study)
  (s s' : state) :
  run_trial func [] study s = (inr study', s') ->
  exists gid s1 v,
    before_trial study s = (inr gid, s1) /\
    func {| number := length (study_trials study); grid_id := gid;
            sampler := study_sampler study |}
         (set_trial_params [] s1) = (inr v, s') /\
    study' = after_trial (add_trial study
               {| ft_number := length (study_trials study);
                  ft_grid_id := gid; ft_params := trial_params s';
                  ft_state := COMPLETE; ft_value := Some v |}).
Proof.
  unfold run_trial. intros H.
  apply bind_success in H. destruct H as (gid & s1 & Hb & H).
  apply bind_success in H. destruct H as ([] & s2 & Hput & H).
  unfold put_trial_params in Hput. inversion Hput; subst; clear Hput.
  apply bind_success in H. destruct H as (r & s3 & Ha & H).
  apply bind_success in H. destruct H as (ps & s4 & Hg & H).
  unfold get_trial_params in Hg. inversion Hg; subst; clear Hg.
  unfold attempt in Ha.
  destruct (func _ (set_trial_params [] s1)) as [r' s5] eqn:Hf.
  inversion Ha; subst; clear Ha.
  destruct r as [e | v]; simpl in H.
  - unfold reraise in H. discriminate.
  - unfold ret in H. inversion H; subst. exists gid, s1, v. auto.
Qed.

End Search.

Section SearchLoop.
Context {E : Env}.

Lemma trial_good_mono (d d' : list event) (t : FrozenTrial) :
  trial_good d t -> trial_good (d' ++ d) t.
Proof.
  intros (Hc & Hlt & Hp & v & Hv & a & model & recon & tadj & mt &
          H1 & H2 & H3 & H4 & H5).
  repeat split; auto. exists v. split; [exact Hv|].
  exists a, model, recon, tadj, mt.
  repeat split; auto; apply in_or_app; right; assumption.
Qed.

Lemma unvisited_In (g : GridSampler) (trials : list FrozenTrial) (gid : nat) :
  In gid (unvisited_grid_ids g trials) <->
  (gid < gs_n_min_trials g)%nat /\ ~ In gid (map ft_grid_id trials).
Proof.
  unfold unvisited_grid_ids. rewrite filter_In, in_seq, negb_true_iff.
  split.
  - intros [Hr Hex]. split; [lia|]. intros Hin.
    assert (Ht : existsb (Nat.eqb gid) (map ft_grid_id trials) = true).
    { apply existsb_exists. exists gid. split; [exact Hin|].
      apply Nat.eqb_refl. }
    congruence.
  - intros [Hlt Hnin]. split; [lia|].
    destruct (existsb (Nat.eqb gid) (map ft_grid_id trials)) eqn:Hex;
      [|reflexivity].
    apply existsb_exists in Hex. destruct Hex as (x & Hx & Heq).
    apply Nat.eqb_eq in Heq. subst. contradiction.
Qed.

Lemma after_trial_fields (study : Study) :
  study_sampler (after_trial study) = study_sampler study /\
  study_direction (after_trial study) = study_direction study /\
  study_trials (after_trial study) = study_trials study /\
  (study_stop_flag study = false ->
   (study_stop_flag (after_trial study) = true <->
    unvisited_grid_ids (study_sampler study) (study_trials study) = [])).
Proof.
  unfold after_trial.
  destruct (unvisited_grid_ids (study_sampler study) (study_trials study));
    simpl; repeat split; auto; intros; try congruence; try discriminate.
Qed.

Lemma run_trial_step (cfg : Config) (d0 : list event) (study study' : Study)
  (s s' : state) :
  search_inv d0 study ->
  study_stop_flag study = false ->
  run_trial (objective cfg) [] study s = (inr study', s') ->
  exists d, trace s' = d ++ trace s /\
            search_inv (d ++ d0) study' /\
            length (study_trials study') = S (length (study_trials study)).
Proof.
  intros (Hs & Hd & Hnd & Hgood & Hflag) Hstop Hrun.
  apply run_trial_success in Hrun.
  destruct Hrun as (gid & s1 & v & Hb & Hf & ->).
  apply before_trial_success in Hb. destruct Hb as [Htr Hin].
  rewrite Hs in Hin.
  assert (Hne : unvisited_grid_ids the_sampler (study_trials study) <> []).
  { intros Hnil. apply Hflag in Hnil. congruence. }
  specialize (Hin Hne). apply unvisited_In in Hin.
  destruct Hin as [Hlt Hnin]. rewrite (proj1 the_sampler_size) in Hlt.
  destruct (the_sampler_point gid Hlt) as (e & l & h & n & Hp & Hok).
  apply (objective_on_grid_point cfg _ e l h n) in Hf;
    [|reflexivity|exact Hs|exact Hp|exact Hok].
  destruct Hf as (Hps & d & Htd & Hev).
  change (trace (set_trial_params [] s1)) with (trace s1) in Htd.
  rewrite Htr in Htd.
  exists d. split; [exact Htd|].
  set (t := {| ft_number := length (study_trials study); ft_grid_id := gid;
               ft_params := trial_params s'; ft_state := COMPLETE;
               ft_value := Some v |}).
  destruct (after_trial_fields (add_trial study t))
    as (Hs' & Hd' & Ht' & Hf').
  split.
  - unfold search_inv. rewrite Hs', Hd', Ht'.
    cbn [add_trial study_sampler study_direction study_trials].
    repeat split.
    + exact Hs.
    + exact Hd.
    + rewrite map_app. cbn [map].
      apply NoDup_app; [exact Hnd|repeat constructor; simpl; tauto|].
      intros x Hx [<- | []]. contradiction.
    + apply Forall_app. split.
      * eapply Forall_impl; [|exact Hgood].
        intros t0. apply trial_good_mono.
      * constructor; [|constructor].
        unfold trial_good, t.
        cbn [ft_state ft_grid_id ft_params ft_value].
        split; [reflexivity|]. split; [exact Hlt|]. split.
        -- rewrite Hps. erewrite nth_error_nth by exact Hp. reflexivity.
        -- exists v. split; [reflexivity|]. rewrite Hps.
           destruct Hev as (a & model & recon & tadj & mt &
                            H1 & H2 & H3 & H4 & H5).
           exists a, model, recon, tadj, mt.
           repeat split; auto; apply in_or_app; left; assumption.
    + intros Hst. apply Hf' in Hst; [|exact Hstop].
      cbn [add_trial study_sampler study_trials] in Hst.
      rewrite Hs in Hst. exact Hst.
    + intros Hun. apply Hf'; [exact Hstop|].
      cbn [add_trial study_sampler study_trials]. rewrite Hs. exact Hun.
  - rewrite Ht'. cbn [add_trial study_trials]. rewrite length_app.
    cbn [length]. lia.
Qed.

Lemma optimize_sequential_inv (cfg : Config) (n : nat) :
  forall (d0 : list event) (study study' : Study) (s s' : state),
    search_inv d0 study ->
    optimize_sequential (objective cfg) [] n study s = (inr study', s') ->
    exists d, trace s' = d ++ trace s /\
              search_inv (d ++ d0) study' /\
              (study_stop_flag study' = true \/
               length (study_trials study') =
               (length (study_trials study) + n)%nat).
Proof.
  induction n as [|n IH]; intros d0 study study' s s' Hinv Hrun; simpl in Hrun.
  - assert (Heq : study' = study /\ s' = s).
    { destruct (study_stop_flag study); unfold ret in Hrun;
        inversion Hrun; auto. }
    destruct Heq as [-> ->]. exists []. cbn [app].
    split; [reflexivity|]. split; [exact Hinv|]. right. lia.
  - destruct (study_stop_flag study) eqn:Hstop.
    + unfold ret in Hrun. inversion Hrun; subst.
      exists []. cbn [app].
      split; [reflexivity|]. split; [exact Hinv|]. left. exact Hstop.
    + apply bind_success in Hrun.
      destruct Hrun as (study1 & s1 & Hstep & Hrest).
      destruct (run_trial_step cfg d0 study study1 s s1 Hinv Hstop Hstep)
        as (d1 & Ht1 & Hinv1 & Hlen1).
      destruct (IH (d1 ++ d0) study1 study' s1 s' Hinv1 Hrest)
        as (d2 & Ht2 & Hinv2 & Hend).
      exists (d2 ++ d1). rewrite Ht2, Ht1, app_assoc.
      split; [reflexivity|]. rewrite <- app_assoc.
      split; [exact Hinv2|].
      destruct Hend as [Hend | Hend]; [left; exact Hend|right; lia].
Qed.

Lemma search_inv_initial :
  search_inv [] (create_study MAXIMIZE the_sampler).
Proof.
  unfold search_inv, create_study. simpl.
  repeat split; try constructor.
  - intros H. discriminate.
  - intros H. vm_compute in H. discriminate.
Qed.

End SearchLoop.

(** ** The best trial *)

Lemma Qlt_bool_true (a b : Q) : Qlt_bool a b = true -> (a < b)%Q.
Proof.
  unfold Qlt_bool. rewrite negb_true_iff. intros H.
  apply Qnot_le_lt. intros Hle. apply Qle_bool_iff in Hle. congruence.
Qed.

Lemma Qlt_bool_false (a b : Q) : Qlt_bool a b = false -> (b <= a)%Q.
Proof.
  unfold Qlt_bool. rewrite negb_false_iff. apply Qle_bool_iff.
Qed.

Lemma fold_update_best (ts : list FrozenTrial) :
  forall acc : option FrozenTrial,
    Forall has_value ts ->
    (forall b, acc = Some b -> has_value b) ->
    match fold_left (update_best MAXIMIZE) ts acc with
    | None => acc = None /\ ts = []
    | Some b =>
        has_value b /\ (In b ts \/ acc = Some b) /\
        forall t v bv, In t ts \/ acc = Some t ->
                       ft_value t = Some v -> ft_value b = Some bv ->
                       (v <= bv)%Q
    end.
Proof.
  induction ts as [|t rest IH]; intros acc Hall Hacc; simpl.
  - destruct acc as [b|]; [|auto].
    split; [apply Hacc; reflexivity|]. split; [right; reflexivity|].
    intros t v bv [[] | Heq] Hv Hb. inversion Heq; subst.
    rewrite Hv in Hb. inversion Hb. apply Qle_refl.
  - inversion Hall as [|? ? Ht Hrest]; subst.
    destruct Ht as [Hc [vt Hvt]].
    assert (Hstep :
      exists acc', update_best MAXIMIZE acc t = Some acc' /\
        has_value acc' /\ (acc' = t \/ acc = Some acc') /\
        (forall v bv, ft_value acc' = Some bv ->
           (ft_value t = Some v -> (v <= bv)%Q) /\
           (forall b, acc = Some b -> ft_value b = Some v -> (v <= bv)%Q))).
    { unfold update_best. rewrite Hc, Hvt.
      destruct acc as [b|].
      - destruct (Hacc b eq_refl) as [Hbc [vb Hvb]]. rewrite Hvb.
        destruct (Qlt_bool vb vt) eqn:Hlt.
        + exists t. split; [reflexivity|].
          split; [split; eauto|]. split; [left; reflexivity|].
          intros v bv Hbv. rewrite Hvt in Hbv. injection Hbv as <-. split.
          * intros Hv. injection Hv as <-. apply Qle_refl.
          * intros b0 Hb0 Hv. injection Hb0 as <-.
            rewrite Hvb in Hv. injection Hv as <-.
            apply Qlt_le_weak, Qlt_bool_true. exact Hlt.
        + exists b. split; [reflexivity|].
          split; [split; eauto|]. split; [right; reflexivity|].
          intros v bv Hbv. rewrite Hvb in Hbv. injection Hbv as <-. split.
          * intros Hv. injection Hv as <-.
            apply Qlt_bool_false. exact Hlt.
          * intros b0 Hb0 Hv. injection Hb0 as <-.
            rewrite Hvb in Hv. injection Hv as <-. apply Qle_refl.
      - exists t. split; [reflexivity|].
        split; [split; eauto|]. split; [left; reflexivity|].
        intros v bv Hbv. rewrite Hvt in Hbv. injection Hbv as <-. split.
        + intros Hv. injection Hv as <-. apply Qle_refl.
        + intros b Hb. discriminate. }
    destruct Hstep as (acc' & Hup & Hgood' & Hwho & Hmax).
    rewrite Hup.
    specialize (IH (Some acc') Hrest).
    assert (Hacc' : forall b, Some acc' = Some b -> has_value b).
    { intros b Hb. inversion Hb; subst. exact Hgood'. }
    specialize (IH Hacc').
    destruct (fold_left (update_best MAXIMIZE) rest (Some acc')) as [b|].
    + destruct IH as (Hgb & Hin & Hle). split; [exact Hgb|]. split.
      * destruct Hin as [Hin | Heq]; [left; right; exact Hin|].
        inversion Heq; subst.
        destruct Hwho as [-> | Hw]; [left; left; reflexivity|right; exact Hw].
      * intros t0 v bv Hsrc Hv Hb.
        destruct Hgood' as [_ [va Hva]].
        assert (Hab : (va <= bv)%Q).
        { apply (Hle acc' va bv); auto. }
        destruct Hsrc as [[<- | Hin0] | Heq].
        -- eapply Qle_trans; [|exact Hab].
           apply (proj1 (Hmax v va Hva)). exact Hv.
        -- apply (Hle t0 v bv); auto.
        -- eapply Qle_trans; [|exact Hab].
           apply (proj2 (Hmax v va Hva) t0); auto.
    + destruct IH as [Hn _]. discriminate.
Qed.

Lemma best_trial_maximal (study : Study) :
  study_direction study = MAXIMIZE ->
  Forall has_value (study_trials study) ->
  study_trials study <> [] ->
  exists best vb,
    best_trial study = inr best /\ In best (study_trials study) /\
    ft_value best = Some vb /\
    forall t v, In t (study_trials study) -> ft_value t = Some v ->
                (v <= vb)%Q.
Proof.
  intros Hd Hall Hne. unfold best_trial. rewrite Hd.
  pose proof (fold_update_best (study_trials study) None Hall) as H.
  assert (Hnone : forall b, @None FrozenTrial = Some b -> has_value b)
    by (intros; discriminate).
  specialize (H Hnone).
  destruct (fold_left (update_best MAXIMIZE) (study_trials study) None)
    as [b|].
  - destruct H as ([_ [vb Hvb]] & Hin & Hle).
    exists b, vb. split; [reflexivity|]. split.
    + destruct Hin as [Hin | Hn]; [exact Hin|discriminate].
    + split; [exact Hvb|]. intros t v Hin0 Hv.
      apply (Hle t v vb); auto.
  - destruct H as [_ Hnil]. contradiction.
Qed.

Lemma grid_combinations_declared (ps : Dict) :
  In ps grid_combinations ->
  exists n e h l,
    ps = dict_of_params n e h l /\
    In n (declared "num_neurons") /\ In e (declared "embedding_size") /\
    In h (declared "num_heads") /\ In l (declared "learning_rate").
Proof.
  unfold grid_combinations. intros H.
  apply in_flat_map in H. destruct H as (e & He & H).
  apply in_flat_map in H. destruct H as (l & Hl & H).
  apply in_flat_map in H. destruct H as (h & Hh & H).
  apply in_map_iff in H. destruct H as (n & <- & Hn).
  exists n, e, h, l. auto.
Qed.

Lemma grid_ids_combinations :
  map (fun g => dict_of_point (nth g (gs_all_grids the_sampler) []))
      (seq 0 128) = grid_combinations.
Proof. vm_compute. reflexivity. Qed.

Section SearchResult.
Context {E : Env}.

(** A search that returns has run every point of the grid once. *)
Lemma run_study_complete (cfg : Config) (s s' : state) (study : Study) :
  run_study cfg s = (inr study, s') ->
  exists d, trace s' = d ++ trace s /\
    study_direction study = MAXIMIZE /\
    Forall (trial_good d) (study_trials study) /\
    Permutation (map ft_grid_id (study_trials study)) (seq 0 128).
Proof.
  unfold run_study, optimize. intros Hrun.
  destruct (optimize_sequential_inv cfg 256 [] _ study s s'
              search_inv_initial Hrun)
    as (d & Htr & (Hs & Hd & Hnd & Hgood & Hflag) & Hend).
  rewrite app_nil_r in Hgood.
  exists d. split; [exact Htr|]. split; [exact Hd|]. split; [exact Hgood|].
  assert (Hincl : incl (map ft_grid_id (study_trials study)) (seq 0 128)).
  { intros g Hg. apply in_map_iff in Hg. destruct Hg as (t & <- & Ht).
    rewrite Forall_forall in Hgood. destruct (Hgood t Ht) as (_ & Hlt & _).
    apply in_seq. lia. }
  assert (Hstop : study_stop_flag study = true).
  { destruct Hend as [Hstop | Hlen]; [exact Hstop|].
    exfalso. pose proof (NoDup_incl_length Hnd Hincl) as Hle.
    rewrite length_map, length_seq, Hlen in Hle.
    cbn [create_study study_trials length] in Hle. lia. }
  apply Hflag in Hstop.
  apply NoDup_Permutation; [exact Hnd|apply seq_NoDup|].
  intros g. split; [apply Hincl|].
  intros Hg. apply in_seq in Hg.
  destruct (in_dec Nat.eq_dec g (map ft_grid_id (study_trials study)))
    as [Hin | Hnin]; [exact Hin|].
  exfalso.
  assert (Hun : In g (unvisited_grid_ids the_sampler (study_trials study))).
  { apply unvisited_In. rewrite (proj1 the_sampler_size). split; [lia|auto]. }
  rewrite Hstop in Hun. destruct Hun.
Qed.

Lemma trial_good_params (d : list event) (trials : list FrozenTrial) :
  Forall (trial_good d) trials ->
  map ft_params trials =
  map (fun g => dict_of_point (nth g (gs_all_grids the_sampler) []))
      (map ft_grid_id trials).
Proof.
  induction 1 as [|t ts Ht _ IH]; simpl; [reflexivity|].
  destruct Ht as (_ & _ & Hp & _). rewrite Hp, IH. reflexivity.
Qed.

End SearchResult.

Section FinalRun.
Context {E : Env}.

(** A final run that returns: the accuracy it reports is the
    [accuracy_score] of the true adjacency it built and of the matrix the
    trained model returned. *)
Lemma final_run_accuracy (cfg : Config) (bp : Dict) (s s' : state)
  (rep : FinalReport) :
  final_run cfg bp s = (inr rep, s') ->
  final_accuracy (fr_true_adj_matrix rep) (fr_reconstructed_adjacency rep)
    = inr (fr_accuracy rep) /\
  exists d, trace s' = d ++ trace s /\
    (exists path genes,
       In (EvTrueAdj path genes (inr (fr_true_adj_matrix rep))) d) /\
    (exists m ei x,
       In (EvForward m ei x (inr (fr_reconstructed_adjacency rep))) d).
Proof.
  unfold_driver. exec; intros Heq; try discriminate.
  inversion Heq; subst; clear Heq.
  cbn [fr_true_adj_matrix fr_reconstructed_adjacency fr_accuracy
       true_adj_matrix] in *.
  split; [assumption|]. state_simpl. give_delta.
  split; [do 2 eexists; find_in|do 3 eexists; find_in].
Qed.

Lemma main_success (cfg : Config) (s s' : state) (rep : FinalReport) :
  main cfg s = (inr rep, s') ->
  exists bp s1 d1, choose_params cfg s = (inr bp, s1) /\
                   trace s1 = d1 ++ trace s /\
                   final_run cfg bp s1 = (inr rep, s').
Proof.
  unfold main. intros H. apply bind_success in H.
  destruct H as (bp & s1 & Hc & Hf). exists bp, s1.
  assert (Hok : run_ok (fun _ => True) (choose_params cfg)).
  { unfold choose_params. destruct (TUNE_HYPERPARAMETERS cfg).
    - eapply run_ok_weaken; [|apply tune_run_ok]. intros; exact I.
    - apply run_ok_ret. }
  destruct (Hok s) as (d1 & Ht & _). rewrite Hc in Ht.
  exists d1. auto.
Qed.

End FinalRun.

(** * The claims *)

(** C1.  In tuning mode the search runs one trial for every combination of
    the values the search space declares, and no other: the parameter
    dicts of the trials are a permutation of the grid.  Each trial
    completed with, as value, the ROC-AUC that [evaluate_model] returned
    for the model it trained with its parameters.  [best_params] is the
    parameter dict of a trial whose value no trial exceeds.  This holds for
    every behaviour of the collaborators and of the sampler's random
    generator. *)
Theorem grid_search_exhaustive_argmax {E : Env} (cfg : Config)
  (s s' : state) (study : Study) :
  TUNE_HYPERPARAMETERS cfg = true ->
  run_study cfg s = (inr study, s') ->
  exists d, trace s' = d ++ trace s /\
    Permutation (map ft_params (study_trials study)) grid_combinations /\
    (forall t, In t (study_trials study) ->
       (exists n e h l,
          ft_params t = dict_of_params n e h l /\
          In n (declared "num_neurons") /\
          In e (declared "embedding_size") /\
          In h (declared "num_heads") /\
          In l (declared "learning_rate")) /\
       ft_state t = COMPLETE /\
       exists v, ft_value t = Some v /\ trial_evidence (ft_params t) v d) /\
    exists best vb,
      best_trial study = inr best /\ In best (study_trials study) /\
      ft_value best = Some vb /\
      (forall t v, In t (study_trials study) -> ft_value t = Some v ->
                   (v <= vb)%Q) /\
      choose_params cfg s = (inr (ft_params best), s').
Proof.
  intros Htune Hrun.
  destruct (run_study_complete cfg s s' study Hrun)
    as (d & Htr & Hdir & Hgood & Hperm).
  exists d. split; [exact Htr|].
  assert (Hp : Permutation (map ft_params (study_trials study))
                 grid_combinations).
  { rewrite (trial_good_params d _ Hgood), <- grid_ids_combinations.
    apply Permutation_map. exact Hperm. }
  split; [exact Hp|]. split.
  - intros t Ht. rewrite Forall_forall in Hgood.
    destruct (Hgood t Ht) as (Hc & _ & _ & Hv).
    split; [|split; [exact Hc|exact Hv]].
    apply grid_combinations_declared.
    eapply Permutation_in; [exact Hp|]. apply in_map. exact Ht.
  - assert (Hall : Forall has_value (study_trials study)).
    { eapply Forall_impl; [|exact Hgood].
      intros t (Hc & _ & _ & v & Hv & _). split; eauto. }
    assert (Hne : study_trials study <> []).
    { intros Hnil. rewrite Hnil in Hperm.
      apply Permutation_length in Hperm. discriminate. }
    destruct (best_trial_maximal study Hdir Hall Hne)
      as (best & vb & Hb & Hin & Hvb & Hmax).
    exists best, vb. repeat split; auto.
    unfold choose_params. rewrite Htune. unfold tune.
    rewrite (bind_inr _ _ _ _ _ Hrun). rewrite Hb. reflexivity.
Qed.

(** C2.  The data preparation inside [objective] and the one of the final
    run are the same function of the configuration and of the outside
    world (files and random source): same result, same effect, same calls
    with the same arguments, namely [EXPR_FILE], then the loaded data with
    [THRESHOLD] and [NOISE_FACTOR], then [NETWORK_FILE] with the loaded
    gene names. *)
Theorem data_preparation_paths_agree {E : Env} (cfg : Config) (s : state) :
  objective_data cfg s = main_data cfg s /\
  exists d, emitted (objective_data cfg) s d /\
            emitted (main_data cfg) s d /\ data_calls cfg d.
Proof.
  split; [reflexivity|].
  destruct (objective_data_calls cfg s) as (d & Ht & Hd).
  exists d. repeat split; assumption.
Qed.

(** C3.  The edge index of an adjacency matrix lists, in row-major order
    and once each, the index pairs [(i, j)] whose entry equals 1, and no
    other pair; in every trial and in the final run the edge index given
    to training and to the forward pass is the one of the adjacency matrix
    built in that same run. *)
Theorem edge_index_of_adjacency {E : Env} :
  (forall (m : Matrix) (i j : nat),
     In (Z.of_nat i, Z.of_nat j) (edge_pairs (edge_index_of m)) <->
     exists row x, nth_error m i = Some row /\
                   nth_error row j = Some x /\ (x == 1)%Q) /\
  (forall (m : Matrix) (p : Z * Z),
     In p (edge_pairs (edge_index_of m)) ->
     exists i j, p = (Z.of_nat i, Z.of_nat j)) /\
  (forall m : Matrix,
     length (fst (edge_index_of m)) = length (snd (edge_index_of m)) /\
     StronglySorted lex_lt (edge_pairs (edge_index_of m))) /\
  (forall (cfg : Config) (trial : Trial) (s : state),
     exists d, emitted (objective cfg trial) s d /\ edge_index_fresh d) /\
  (forall (cfg : Config) (bp : Dict) (s : state),
     exists d, emitted (final_run cfg bp) s d /\ edge_index_fresh d).
Proof.
  split; [apply edge_index_membership|].
  split; [intros m; apply (proj2 (edge_index_rows m))|].
  split; [intros m; split;
          [apply (proj1 (edge_index_rows m))|apply edge_index_sorted]|].
  split; [apply objective_edge_index_fresh|apply final_run_edge_index_fresh].
Qed.

(** C4.  When the run returns and the true and the reconstructed adjacency
    are [n] x [n] with [n > 0], the accuracy it reports is the number of
    index pairs [(i, j)], diagonal included, at which the label equals the
    prediction thresholded strictly above 0.5, divided by [n * n]; the two
    matrices are the true adjacency built by this run and the output of
    its trained model. *)
Theorem reported_accuracy_is_fraction {E : Env} (cfg : Config)
  (s s' : state) (rep : FinalReport) (n : nat) :
  main cfg s = (inr rep, s') ->
  (0 < n)%nat ->
  square n (fr_true_adj_matrix rep) ->
  square n (fr_reconstructed_adjacency rep) ->
  fr_accuracy rep =
    spec_accuracy n (fr_true_adj_matrix rep)
      (fr_reconstructed_adjacency rep) /\
  exists d, trace s' = d ++ trace s /\
    (exists path genes,
       In (EvTrueAdj path genes (inr (fr_true_adj_matrix rep))) d) /\
    (exists m ei x,
       In (EvForward m ei x (inr (fr_reconstructed_adjacency rep))) d).
Proof.
  intros Hmain Hn Ht Hp.
  destruct (main_success cfg s s' rep Hmain)
    as (bp & s1 & d1 & _ & Ht1 & Hfinal).
  destruct (final_run_accuracy cfg bp s1 s' rep Hfinal)
    as (Hacc & d & Htr & Htrue & Hfwd).
  split.
  - rewrite (final_accuracy_fraction n _ _ Hn Ht Hp) in Hacc.
    injection Hacc as <-. reflexivity.
  - exists (d ++ d1). rewrite Htr, Ht1, app_assoc.
    split; [reflexivity|]. split.
    + destruct Htrue as (path & genes & Hin). exists path, genes.
      apply in_or_app. left. exact Hin.
    + destruct Hfwd as (m & ei & x & Hin). exists m, ei, x.
      apply in_or_app. left. exact Hin.
Qed.

(** C5.  The matrix the final run hands to the whole-network overlap as
    correlation baseline is the result of [construct_adjacency_matrix] (the
    constructor without noise) on the expression data the run loaded and
    on [THRESHOLD], the data and threshold from which the training
    adjacency was built with noise; the noise factor is no argument of
    it.  A final run that returns has made this comparison. *)
Theorem overlap_baseline_without_noise {E : Env} (cfg : Config)
  (bp : Dict) (s : state) :
  exists d, emitted (final_run cfg bp) s d /\
    (forall r t pcc out, In (EvOverlap r t pcc out) d ->
       exists eg adj,
         In (EvPreprocess (EXPR_FILE cfg) (inr eg)) d /\
         In (EvNoisyAdj (fst eg) (THRESHOLD cfg) (NOISE_FACTOR cfg)
               (inr adj)) d /\
         In (EvAdj (fst eg) (THRESHOLD cfg) (inr pcc)) d /\
         construct_adjacency_matrix (fst eg) (THRESHOLD cfg) = inr pcc) /\
    (forall rep, fst (final_run cfg bp s) = inr rep ->
       exists r t pcc ov, In (EvOverlap r t pcc (inr ov)) d).
Proof. apply final_run_overlap_baseline. Qed.

(** C6.  Nothing that raises during a trial, the search or the whole run is
    caught: whenever an event of the run ended with an exception [e], the
    run itself ends with [e] (so a run that returns metrics raised
    nothing, and no metric stands in for a failure), and a run that ends
    with [e] ends on the event that raised it.  The search is started with
    an empty [catch]. *)
Theorem errors_abort_the_run {E : Env} (cfg : Config) :
  (forall (trial : Trial) (s : state),
     exists d, emitted (objective cfg trial) s d /\
       (forall ev e, In ev d -> event_exn ev = Some e ->
                     fst (objective cfg trial s) = inl e) /\
       (forall e, fst (objective cfg trial s) = inl e ->
                  exists ev d', d = ev :: d' /\ event_exn ev = Some e)) /\
  (forall s : state,
     exists d, emitted (run_study cfg) s d /\
       (forall ev e, In ev d -> event_exn ev = Some e ->
                     fst (run_study cfg s) = inl e) /\
       (forall e, fst (run_study cfg s) = inl e ->
                  exists ev d', d = ev :: d' /\ event_exn ev = Some e)) /\
  (forall s : state,
     exists d, emitted (main cfg) s d /\
       (forall ev e, In ev d -> event_exn ev = Some e ->
                     fst (main cfg s) = inl e) /\
       (forall e, fst (main cfg s) = inl e ->
                  exists ev d', d = ev :: d' /\ event_exn ev = Some e)).
Proof.
  split; [|split].
  - intros trial. eapply run_ok_propagates. apply objective_run_ok.
  - eapply run_ok_propagates. apply run_study_run_ok.
  - eapply run_ok_propagates. apply main_run_ok.
Qed.

(** C10.  Every [GAT_VGAE] built by a trial, hence by the whole search, is
    built without the [dropout] keyword, and a trial that returns has built
    one; every [GAT_VGAE] built by the final run is built with
    [dropout=DROPOUT], and a final run that returns has built one. *)
Theorem dropout_only_in_final_run {E : Env} (cfg : Config) :
  (forall (trial : Trial) (s : state),
     exists d, emitted (objective cfg trial) s d /\
       (forall a out, In (EvGAT a out) d -> arg_dropout a = None) /\
       (forall v, fst (objective cfg trial s) = inr v ->
                  exists a model, In (EvGAT a (inr model)) d)) /\
  (forall s : state,
     exists d, emitted (run_study cfg) s d /\
       forall a out, In (EvGAT a out) d -> arg_dropout a = None) /\
  (forall (bp : Dict) (s : state),
     exists d, emitted (final_run cfg bp) s d /\
       (forall a out, In (EvGAT a out) d ->
                      arg_dropout a = Some (DROPOUT cfg)) /\
       (forall rep, fst (final_run cfg bp s) = inr rep ->
                    exists a model, In (EvGAT a (inr model)) d)).
Proof.
  split; [|split].
  - apply objective_no_dropout.
  - apply run_study_no_dropout.
  - apply final_run_dropout.
Qed.

(** ** The early precision rate *)

Lemma divide_nonzero (a : Q) (b : Z) :
  b <> 0 -> Evaluators.divide a b = inr (a / inject_Z b)%Q.
Proof.
  intros Hb. unfold Evaluators.divide.
  destruct (Z.eqb_spec b 0); [contradiction|reflexivity].
Qed.

(** C9.  The early precision rate always returns a number, never the
    division error, and the number is 0 whenever the cutoff
    [k = floor(kFraction * numGroundTruthEdges)] is 0; [k] is 0 when
    [kFraction] is 0 and when there is no ground-truth edge. *)
Theorem early_precision_rate_zero_cutoff (reconstructed true_adj : Matrix)
  (k_fraction : Q) :
  (exists q,
     Evaluators.early_precision_rate reconstructed true_adj k_fraction
     = inr q) /\
  (Evaluators.top_k_cutoff k_fraction true_adj = 0 ->
   Evaluators.early_precision_rate reconstructed true_adj k_fraction
   = inr 0%Q) /\
  Evaluators.top_k_cutoff 0 true_adj = 0 /\
  (Evaluators.num_ground_truth_edges true_adj = 0%nat ->
   Evaluators.top_k_cutoff k_fraction true_adj = 0).
Proof.
  unfold Evaluators.early_precision_rate.
  split; [|split; [|split]].
  - destruct (Z.eqb_spec (Evaluators.top_k_cutoff k_fraction true_adj) 0)
      as [Hz | Hnz].
    + exists 0%Q. reflexivity.
    + rewrite (divide_nonzero _ _ Hnz). eexists. reflexivity.
  - intros Hk. rewrite Hk. reflexivity.
  - unfold Evaluators.top_k_cutoff.
    rewrite (Qfloor_comp _ 0%Q); [reflexivity|]. apply Qmult_0_l.
  - intros Hn. unfold Evaluators.top_k_cutoff. rewrite Hn.
    rewrite (Qfloor_comp _ 0%Q); [reflexivity|]. apply Qmult_0_r.
Qed.

(** ** The graph constructor *)

Module PreprocessorsProps.
Import Reals Lra.
Import Preprocessors.
Local Open Scope R_scope.

Lemma build_length (n : nat) (f : nat -> nat -> R) :
  length (build n f) = n.
Proof. unfold build. rewrite length_map, length_seq. reflexivity. Qed.

Lemma build_nth (n : nat) (f : nat -> nat -> R) (i j : nat) :
  (i < n)%nat -> (j < n)%nat -> nth j (nth i (build n f) []) 0 = f i j.
Proof.
  intros Hi Hj. unfold build.
  rewrite (nth_indep _ [] (map (f 0%nat) (seq 0 n)))
    by (rewrite length_map, length_seq; exact Hi).
  rewrite (map_nth (fun i => map (f i) (seq 0 n)) (seq 0 n) 0%nat i).
  rewrite seq_nth by exact Hi. cbn [Nat.add].
  rewrite (nth_indep _ 0 (f i 0%nat))
    by (rewrite length_map, length_seq; exact Hj).
  rewrite (map_nth (f i) (seq 0 n) 0%nat j).
  rewrite seq_nth by exact Hj. reflexivity.
Qed.

Lemma build_ext (n : nat) (f g : nat -> nat -> R) :
  (forall i j, (i < n)%nat -> (j < n)%nat -> f i j = g i j) ->
  build n f = build n g.
Proof.
  intros H. unfold build. apply map_ext_in. intros i Hi.
  apply in_seq in Hi. apply map_ext_in. intros j Hj.
  apply in_seq in Hj. apply H; lia.
Qed.

Lemma in_unit_interval_true (x : R) :
  0 <= x <= 1 -> in_unit_interval x = true.
Proof.
  intros [H0 H1]. unfold in_unit_interval.
  destruct (Rle_dec 0 x); [|contradiction].
  destruct (Rle_dec x 1); [reflexivity|contradiction].
Qed.

(** C8.  With a threshold in [0,1] and draws that are not negative, the
    adjacency built with noise factor 0 is the adjacency built without
    noise: the same matrix, or the same error. *)
Theorem noise_zero_is_noop (c : R) (u : nat -> nat -> R) (expr : RMatrix)
  (threshold : R) :
  0 <= threshold <= 1 ->
  (forall i j, 0 <= u i j) ->
  constructAdjacencyWithNoise c u expr threshold 0
  = constructAdjacency expr threshold.
Proof.
  intros Ht Hu. unfold constructAdjacencyWithNoise.
  rewrite (in_unit_interval_true 0) by lra.
  rewrite (in_unit_interval_true threshold Ht). cbn [andb negb].
  unfold constructAdjacency.
  destruct (Nat.ltb (num_genes expr) 2); [reflexivity|].
  f_equal. rewrite build_length. apply build_ext.
  intros i j Hi Hj. rewrite build_nth by assumption.
  destruct (Nat.eqb i j); [reflexivity|].
  unfold Rltb.
  destruct (Rlt_dec (u (Nat.min i j) (Nat.max i j)) (c * 0)) as [Hlt|];
    [|reflexivity].
  exfalso. rewrite Rmult_0_r in Hlt.
  pose proof (Hu (Nat.min i j) (Nat.max i j)). lra.
Qed.

(** Three samples of two genes, threshold 1/2, all draws 0. *)
Lemma noise_zero_demo :
  0 <= 1 / 2 <= 1 /\
  constructAdjacencyWithNoise 1 (fun _ _ => 0)
    [[1; 2]; [3; 5]; [2; 2]] (1 / 2) 0
  = constructAdjacency [[1; 2]; [3; 5]; [2; 2]] (1 / 2).
Proof.
  split; [lra|].
  apply noise_zero_is_noop; [lra|intros; lra].
Defined.

End PreprocessorsProps.

(** ** The model output *)

Module GATModelProps.
Import Reals Lra.
Import Preprocessors GATModel.
Local Open Scope R_scope.

Lemma sigmoid_bounds (x : R) : 0 < sigmoid x < 1.
Proof.
  unfold sigmoid. pose proof (exp_pos (- x)) as He.
  assert (Hy : 1 < 1 + exp (- x)) by lra.
  assert (Hinv : 0 < / (1 + exp (- x))) by (apply Rinv_0_lt_compat; lra).
  assert (Hlt : / (1 + exp (- x)) < 1).
  { rewrite <- Rinv_1 at 2. apply Rinv_lt_contravar; lra. }
  unfold Rdiv. lra.
Qed.

Lemma decoder_shape (z : RMatrix) : rsquare (length z) (decoder z).
Proof.
  unfold rsquare, decoder. split; [apply length_map|].
  apply Forall_map. apply Forall_forall. intros zi _. apply length_map.
Qed.

Lemma decoder_entries (z : RMatrix) :
  Forall (Forall (fun p => 0 <= p <= 1)) (decoder z).
Proof.
  unfold decoder. apply Forall_map. apply Forall_forall. intros zi _.
  apply Forall_map. apply Forall_forall. intros zj _.
  pose proof (sigmoid_bounds (dot zi zj)). lra.
Qed.

Lemma zip3_rows_length (f : R -> R -> R -> R) (n : nat) :
  forall a b c : RMatrix,
    length a = n -> length b = n -> length c = n ->
    length (zip3_rows f a b c) = n.
Proof.
  induction n as [|n IH]; intros [|x a] [|y b] [|w c] Ha Hb Hc;
    simpl in *; try discriminate; [reflexivity|].
  f_equal. apply IH; lia.
Qed.

(** C7.  When the encoder gives one latent row per node, the forward pass
    returns an [n] x [n] matrix whose entries all lie in [0,1], in
    training (reparameterized latent) and in inference (mean latent). *)
Theorem forward_output_is_probability_matrix
  (encode : EdgeIndex -> RMatrix -> RMatrix * RMatrix) (training : bool)
  (noise : RMatrix) (edgeIndex : EdgeIndex) (features : RMatrix) (n : nat) :
  length (fst (encode edgeIndex features)) = n ->
  length (snd (encode edgeIndex features)) = n ->
  length noise = n ->
  rsquare n (forward_pass encode training noise edgeIndex features) /\
  Forall (Forall (fun p => 0 <= p <= 1))
         (forward_pass encode training noise edgeIndex features).
Proof.
  intros Hm Hl Hn. unfold forward_pass. split; [|apply decoder_entries].
  destruct training.
  - pose proof (decoder_shape
        (reparameterize (fst (encode edgeIndex features))
           (snd (encode edgeIndex features)) noise)) as H.
    unfold reparameterize in *.
    rewrite (zip3_rows_length _ n) in H by assumption. exact H.
  - pose proof (decoder_shape (fst (encode edgeIndex features))) as H.
    rewrite Hm in H. exact H.
Qed.

(** Two nodes with one feature, an encoder that returns the features as
    mean and as log-variance, a training pass with zero noise. *)
Lemma forward_output_demo :
  rsquare 2 (forward_pass (fun _ x => (x, x)) true [[0]; [0]] ([], [])
               [[1]; [2]]) /\
  Forall (Forall (fun p => 0 <= p <= 1))
         (forward_pass (fun _ x => (x, x)) true [[0]; [0]] ([], [])
            [[1]; [2]]).
Proof.
  apply (forward_output_is_probability_matrix
           (fun _ x => (x, x)) true [[0]; [0]] ([], []) [[1]; [2]] 2);
    reflexivity.
Defined.

End GATModelProps.

(** With the predefined hyperparameters the two-gene run reports the
    accuracy 4/4: the thresholded model output agrees with the truth at
    the four positions. *)
Lemma reported_accuracy_demo :
  @main Demo.env (Demo.cfg false) Demo.start
    = (inr Demo.report, snd (@main Demo.env (Demo.cfg false) Demo.start)) /\
  fr_accuracy Demo.report = (4 # 4)%Q.
Proof.
  assert (Hrun : @main Demo.env (Demo.cfg false) Demo.start
                 = (inr Demo.report,
                    snd (@main Demo.env (Demo.cfg false) Demo.start)))
    by (vm_compute; reflexivity).
  split; [exact Hrun|].
  assert (Hsq1 : square 2 (fr_true_adj_matrix Demo.report))
    by (split; [reflexivity|repeat constructor]).
  assert (Hsq2 : square 2 (fr_reconstructed_adjacency Demo.report))
    by (split; [reflexivity|repeat constructor]).
  rewrite (proj1 (@reported_accuracy_is_fraction Demo.env (Demo.cfg false)
                    Demo.start _ Demo.report 2%nat Hrun
                    (Nat.lt_0_succ 1) Hsq1 Hsq2)).
  reflexivity.
Defined.

(** In tuning mode the two-gene run tries the 128 combinations. *)
Lemma grid_search_demo :
  @run_study Demo.env (Demo.cfg true) Demo.start
    = (inr Demo.study,
       snd (@run_study Demo.env (Demo.cfg true) Demo.start)) /\
  Permutation (map ft_params (study_trials Demo.study)) grid_combinations /\
  length (study_trials Demo.study) = 128%nat.
Proof.
  assert (Hrun : @run_study Demo.env (Demo.cfg true) Demo.start
                 = (inr Demo.study,
                    snd (@run_study Demo.env (Demo.cfg true) Demo.start)))
    by (vm_compute; reflexivity).
  split; [exact Hrun|].
  destruct (@grid_search_exhaustive_argmax Demo.env (Demo.cfg true)
              Demo.start _ Demo.study eq_refl Hrun)
    as (d & _ & Hperm & _).
  split; [exact Hperm|reflexivity].
Defined.

(** With [kFraction = 0] the early precision rate of the two-gene truth
    is 0. *)
Lemma early_precision_rate_demo :
  Evaluators.top_k_cutoff 0 Demo.adj = 0 /\
  Evaluators.early_precision_rate Demo.adj Demo.adj 0 = inr 0%Q.
Proof.
  split; [reflexivity|].
  apply (proj1 (proj2 (early_precision_rate_zero_cutoff
                         Demo.adj Demo.adj 0))).
  reflexivity.
Defined.

(** * Further properties of the driver *)

(** ** Properties of the events of a whole run *)

Section Emits.
Context {E : Env}.
Variable L : list event -> Prop.
Hypothesis HL : additive L.

Lemma emits_ret {A : Type} (a : A) : emits L (ret a).
Proof. intros s. exists []. split; [reflexivity|apply HL]. Qed.

Lemma emits_bind {A B : Type} (m : M A) (f : A -> M B) :
  emits L m -> (forall a, emits L (f a)) -> emits L (bind m f).
Proof.
  intros Hm Hf s. unfold emitted, bind.
  destruct (Hm s) as (d1 & Ht1 & HL1). unfold emitted in Ht1.
  destruct (m s) as [[e | a] s1]; simpl in *.
  - exists d1. auto.
  - destruct (Hf a s1) as (d2 & Ht2 & HL2). unfold emitted in Ht2.
    exists (d2 ++ d1). rewrite Ht2, Ht1, app_assoc.
    split; [reflexivity|]. apply HL; assumption.
Qed.

Lemma emits_lift_result {A : Type} (r : exn + A) : emits L (lift_result r).
Proof.
  destruct r as [e | a]; simpl; [|apply emits_ret].
  intros s. exists [EvRaised e]. split; [reflexivity|apply HL].
Qed.

Lemma emits_before_trial (study : Study) : emits L (before_trial study).
Proof.
  unfold before_trial.
  destruct (match unvisited_grid_ids (study_sampler study)
                    (study_trials study) with
            | [] => seq 0 (gs_n_min_trials (study_sampler study))
            | _ :: _ => unvisited_grid_ids (study_sampler study)
                          (study_trials study)
            end).
  - intros s. exists [EvRaised (ValueError "a must be non-empty")].
    split; [reflexivity|apply HL].
  - intros s. unfold emitted, bind, rng_index, ret.
    destruct (rng_choice _ (world s)). exists []. split; [reflexivity|apply HL].
Qed.

Lemma emits_run_trial (func : Trial -> M Q) (catch : list exn_class)
  (study : Study) :
  (forall trial, emits L (func trial)) -> emits L (run_trial func catch study).
Proof.
  intros Hf. unfold run_trial.
  apply emits_bind; [apply emits_before_trial|intros gid].
  apply emits_bind.
  { intros s. exists []. split; [reflexivity|apply HL]. }
  intros _.
  set (trial := {| number := length (study_trials study); grid_id := gid;
                   sampler := study_sampler study |}).
  intros s. unfold emitted, bind, attempt, get_trial_params.
  destruct (Hf trial s) as (d & Ht & HLd). unfold emitted in Ht.
  destruct (func trial s) as [[e | v] s1]; simpl in *.
  - exists d. split; [|exact HLd].
    destruct (isinstance e catch); exact Ht.
  - exists d. auto.
Qed.

Lemma emits_optimize_sequential (func : Trial -> M Q)
  (catch : list exn_class) (n : nat) (study : Study) :
  (forall trial, emits L (func trial)) ->
  emits L (optimize_sequential func catch n study).
Proof.
  intros Hf. revert study. induction n as [|n IH]; intros study; simpl.
  - destruct (study_stop_flag study); apply emits_ret.
  - destruct (study_stop_flag study); [apply emits_ret|].
    apply emits_bind; [apply emits_run_trial; exact Hf|].
    intros study'. apply IH.
Qed.

(** What holds of every trial and of the final run holds of the run. *)
Lemma emits_main (cfg : Config) :
  (forall trial, emits L (objective cfg trial)) ->
  (forall bp, emits L (final_run cfg bp)) ->
  emits L (main cfg).
Proof.
  intros Ho Hf. unfold main. apply emits_bind; [|exact Hf].
  unfold choose_params. destruct (TUNE_HYPERPARAMETERS cfg);
    [|apply emits_ret].
  unfold tune. apply emits_bind.
  - unfold run_study, optimize. apply emits_optimize_sequential. exact Ho.
  - intros study. apply emits_bind; [apply emits_lift_result|].
    intros best. apply emits_ret.
Qed.

End Emits.

Lemma additive_Forall {E : Env} (P : event -> Prop) :
  (forall e, P (EvRaised e)) -> additive (Forall P).
Proof.
  intros HP. split; [constructor|]. split.
  - intros e. constructor; [apply HP|constructor].
  - intros d1 d2 H1 H2. apply Forall_app. auto.
Qed.

Lemma additive_model_wiring {E : Env} : additive model_wiring.
Proof.
  split; [|split].
  - repeat split; intros; contradiction.
  - intros e. repeat split; intros; simpl in *;
      match goal with H : _ \/ False |- _ => destruct H as [H | []] end;
      discriminate.
  - intros d1 d2 (T1 & F1 & V1) (T2 & F2 & V2). split; [|split].
    + intros a out Hin. apply in_app_or in Hin.
      destruct Hin as [Hin | Hin].
      * destruct (T2 a out Hin) as (He & g & Hg & Hr).
        split; [exact He|]. exists g. split; [|exact Hr].
        apply in_or_app. left. exact Hg.
      * destruct (T1 a out Hin) as (He & g & Hg & Hr).
        split; [exact He|]. exists g. split; [|exact Hr].
        apply in_or_app. right. exact Hg.
    + intros m ei x out Hin. apply in_app_or in Hin.
      destruct Hin as [Hin | Hin].
      * destruct (F2 m ei x out Hin) as (a & Ha & Hr).
        exists a. split; [|exact Hr]. apply in_or_app. left. exact Ha.
      * destruct (F1 m ei x out Hin) as (a & Ha & Hr).
        exists a. split; [|exact Hr]. apply in_or_app. right. exact Ha.
    + intros t r out Hin. apply in_app_or in Hin.
      destruct Hin as [Hin | Hin].
      * destruct (V2 t r out Hin) as (m & a & Ha & Hf & Hr).
        exists m, a. repeat split; auto; apply in_or_app; left; assumption.
      * destruct (V1 t r out Hin) as (m & a & Ha & Hf & Hr).
        exists m, a. repeat split; auto; apply in_or_app; right; assumption.
Qed.

Lemma additive_log_wiring {E : Env} : additive log_wiring.
Proof.
  split; [|split].
  - intros row out [].
  - intros e row out [H | []]. discriminate.
  - intros d1 d2 H1 H2 row out Hin. apply in_app_or in Hin.
    destruct Hin as [Hin | Hin].
    + destruct (H2 row out Hin) as (t & r & a & model & He & Ha & Hr).
      exists t, r, a, model.
      repeat split; try apply Hr; apply in_or_app; left; assumption.
    + destruct (H1 row out Hin) as (t & r & a & model & He & Ha & Hr).
      exists t, r, a, model.
      repeat split; try apply Hr; apply in_or_app; right; assumption.
Qed.

Ltac link_step :=
  match goal with
  | |- _ /\ _ => split
  | |- exists _, _ => eexists
  | |- In _ _ => find_in
  | |- _ \/ _ => find_in
  | |- _ = _ => reflexivity
  | |- True => exact I
  end.

Ltac solve_links :=
  cbn [tr_model tr_edge_index tr_features tr_adj_target tr_true_adj
       tr_num_epochs tr_optimizer_lr tr_num_neurons tr_embedding_size
       tr_lr tr_heads arg_num_features arg_num_neurons arg_embedding_size
       arg_num_heads arg_num_nodes arg_dropout rr_run_id rr_num_neurons
       rr_embedding_size rr_learning_rate rr_num_heads rr_metrics
       rr_dataset expr_data gene_names adj_matrix expr_tensor edge_index
       adj_matrix_tensor true_adj_matrix];
  repeat link_step.

Ltac event_cases :=
  intros; split_in;
  repeat match goal with
         | H : _ = _ :> event |- _ => injection H; clear H; intros; subst
         end.

Ltac run_facts_paths :=
  unfold run_facts, model_wiring, log_wiring; cbn [In];
  split;
  [ repeat constructor; cbn [configured_call]; solve_links
  | split;
    [ (split; [|split]); event_cases; solve_links
    | event_cases; solve_links ] ].

Section WholeRun.
Context {E : Env}.

Lemma additive_run_facts (cfg : Config) : additive (run_facts cfg).
Proof.
  destruct (additive_Forall (configured_call cfg) (fun _ => I))
    as (A0 & A1 & A2).
  destruct additive_model_wiring as (B0 & B1 & B2).
  destruct additive_log_wiring as (C0 & C1 & C2).
  unfold run_facts. split; [|split].
  - split; [exact A0|split; [exact B0|exact C0]].
  - intros e. split; [apply A1|split; [apply B1|apply C1]].
  - intros d1 d2 (a1 & b1 & c1) (a2 & b2 & c2).
    split; [apply A2; assumption|].
    split; [apply B2; assumption|apply C2; assumption].
Qed.

Lemma objective_run_facts (cfg : Config) (trial : Trial) :
  emits (run_facts cfg) (objective cfg trial).
Proof.
  intros s. unfold emitted. unfold_driver.
  exec; give_delta; forget_equations; run_facts_paths.
Qed.

Lemma final_run_run_facts (cfg : Config) (bp : Dict) :
  emits (fun d => run_facts cfg d /\
                  Forall (fun ev => is_log ev = false) d)
        (final_run cfg bp).
Proof.
  intros s. unfold emitted. unfold_driver.
  exec; give_delta; forget_equations;
    (split; [run_facts_paths|repeat constructor]).
Qed.

End WholeRun.

(** ** Configuration keys that reach no call *)

Section Unused.
Context {E : Env}.

Lemma objective_with_unused (cfg : Config) (a b : string) (k : option Q) :
  objective (with_unused cfg a b k) = objective cfg.
Proof. reflexivity. Qed.

Lemma objective_with_dropout (cfg : Config) (d : option Q) :
  objective (with_dropout cfg d) = objective cfg.
Proof. reflexivity. Qed.

Lemma objective_with_predefined (cfg : Config) (n e h l : PyVal) :
  objective (with_predefined cfg n e h l) = objective cfg.
Proof. reflexivity. Qed.

Lemma final_run_with_unused (cfg : Config) (a b : string) (k : option Q) :
  final_run (with_unused cfg a b k) = final_run cfg.
Proof. reflexivity. Qed.

Lemma final_run_with_predefined (cfg : Config) (n e h l : PyVal) :
  final_run (with_predefined cfg n e h l) = final_run cfg.
Proof. reflexivity. Qed.

Lemma main_with_unused (cfg : Config) (a b : string) (k : option Q) :
  main (with_unused cfg a b k) = main cfg.
Proof.
  unfold main, choose_params, tune, run_study.
  rewrite objective_with_unused, final_run_with_unused. reflexivity.
Qed.

Lemma run_study_with_dropout (cfg : Config) (d : option Q) :
  run_study (with_dropout cfg d) = run_study cfg.
Proof.
  unfold run_study. rewrite objective_with_dropout. reflexivity.
Qed.

Lemma main_with_predefined (cfg : Config) (n e h l : PyVal) :
  TUNE_HYPERPARAMETERS cfg = true ->
  main (with_predefined cfg n e h l) = main cfg.
Proof.
  intros Ht. unfold main, choose_params, tune, run_study.
  rewrite objective_with_predefined, final_run_with_predefined.
  change (TUNE_HYPERPARAMETERS (with_predefined cfg n e h l))
    with (TUNE_HYPERPARAMETERS cfg).
  rewrite Ht. reflexivity.
Qed.

End Unused.

(** ** Trials on the grid, whatever their outcome *)

Section GridTrials.
Context {E : Env}.

Ltac on_grid_point Hps Hn He Hh Hl :=
  unfold objective;
  erewrite bind_inr
    by (apply suggest_fresh;
        [cbn [trial_params set_trial_params]; rewrite Hps; reflexivity
        |exact Hn]);
  erewrite bind_inr
    by (apply suggest_fresh;
        [cbn [trial_params set_trial_params]; rewrite Hps; reflexivity
        |exact He]);
  erewrite bind_inr
    by (apply suggest_fresh;
        [cbn [trial_params set_trial_params]; rewrite Hps; reflexivity
        |exact Hh]);
  erewrite bind_inr
    by (apply suggest_fresh;
        [cbn [trial_params set_trial_params]; rewrite Hps; reflexivity
        |exact Hl]);
  cbn [trial_params set_trial_params]; rewrite Hps;
  cbn [dict_set String.eqb Ascii.eqb Bool.eqb].

(** A trial on a point of the grid raises nothing of its own, and when it
    returns its events are the eight calls. *)
Lemma objective_on_grid_calls (cfg : Config) (trial : Trial)
  (e l h n : PyVal) (s : state) :
  trial_params s = [] ->
  sampler trial = the_sampler ->
  nth_error (gs_all_grids the_sampler) (grid_id trial) = Some [e; l; h; n] ->
  point_ok [e; l; h; n] = true ->
  exists d, emitted (objective cfg trial) s d /\ no_raised d /\
    (forall v, fst (objective cfg trial s) = inr v -> trial_calls cfg d).
Proof.
  intros Hps Hs Hp Hok.
  destruct (sample_independent_point trial e l h n Hs Hp Hok)
    as (Hn & He & Hh & Hl).
  unfold emitted. on_grid_point Hps Hn He Hh Hl.
  clear Hn He Hh Hl Hp Hok Hs.
  unfold_driver. exec; give_delta; forget_equations;
    (split; [repeat constructor|]); intros v Hv; try discriminate.
  unfold trial_calls.
  repeat match goal with x : unit |- _ => destruct x end.
  repeat eexists.
Qed.

Lemma before_trial_total (study : Study) (s : state) :
  unvisited_grid_ids (study_sampler study) (study_trials study) <> [] ->
  exists gid s1, before_trial study s = (inr gid, s1).
Proof.
  intros Hne. unfold before_trial.
  destruct (unvisited_grid_ids (study_sampler study) (study_trials study))
    as [|u us]; [contradiction|].
  cbv beta iota. unfold bind, rng_index, ret.
  destruct (rng_choice _ (world s)) as [i w]. eauto.
Qed.

Lemma run_trial_trace (func : Trial -> M Q) (study : Study) (s s1 : state)
  (gid : nat) :
  before_trial study s = (inr gid, s1) ->
  trace (snd (run_trial func [] study s)) =
  trace (snd (func {| number := length (study_trials study);
                      grid_id := gid; sampler := study_sampler study |}
                   (set_trial_params [] s1))) /\
  (forall e, fst (func {| number := length (study_trials study);
                          grid_id := gid; sampler := study_sampler study |}
                       (set_trial_params [] s1)) = inl e ->
             fst (run_trial func [] study s) = inl e).
Proof.
  intros Hb. unfold run_trial.
  rewrite (bind_inr _ _ _ _ _ Hb).
  unfold bind, put_trial_params, attempt, get_trial_params.
  destruct (func _ (set_trial_params [] s1)) as [[e | v] s2]; simpl.
  - split; [reflexivity|]. intros e0 He. injection He as <-. reflexivity.
  - split; [reflexivity|]. intros e0 He. discriminate.
Qed.

(** The grid point a trial of the search runs on. *)
Lemma search_trial_point (d0 : list event) (study : Study) (s s1 : state)
  (gid : nat) :
  search_inv d0 study ->
  study_stop_flag study = false ->
  before_trial study s = (inr gid, s1) ->
  trace s1 = trace s /\
  exists e l h n,
    nth_error (gs_all_grids the_sampler) gid = Some [e; l; h; n] /\
    point_ok [e; l; h; n] = true.
Proof.
  intros (Hs & _ & _ & _ & Hflag) Hstop Hb.
  apply before_trial_success in Hb. destruct Hb as [Htr Hin].
  split; [exact Htr|]. rewrite Hs in Hin.
  assert (Hne : unvisited_grid_ids the_sampler (study_trials study) <> []).
  { intros Hnil. apply Hflag in Hnil. congruence. }
  specialize (Hin Hne). apply unvisited_In in Hin.
  destruct Hin as [Hlt _]. rewrite (proj1 the_sampler_size) in Hlt.
  apply the_sampler_point. exact Hlt.
Qed.

Lemma run_trial_calls (cfg : Config) (d0 : list event) (study : Study)
  (s : state) :
  search_inv d0 study ->
  study_stop_flag study = false ->
  exists d, emitted (run_trial (objective cfg) [] study) s d /\
    no_raised d /\
    (forall study', fst (run_trial (objective cfg) [] study s) = inr study' ->
                    trial_calls cfg d).
Proof.
  intros Hinv Hstop.
  assert (Hne : unvisited_grid_ids (study_sampler study)
                  (study_trials study) <> []).
  { destruct Hinv as (Hs & _ & _ & _ & Hflag). rewrite Hs.
    intros Hnil. apply Hflag in Hnil. congruence. }
  destruct (before_trial_total study s Hne) as (gid & s1 & Hb).
  destruct (search_trial_point d0 study s s1 gid Hinv Hstop Hb)
    as (Htr & e & l & h & n & Hp & Hok).
  destruct (run_trial_trace (objective cfg) study s s1 gid Hb)
    as (Ht & Hfail).
  destruct (objective_on_grid_calls cfg
              {| number := length (study_trials study); grid_id := gid;
                 sampler := study_sampler study |} e l h n
              (set_trial_params [] s1) eq_refl
              (proj1 Hinv) Hp Hok)
    as (d & Hd & Hnr & Hcalls).
  unfold emitted in *. exists d.
  split; [rewrite Ht, Hd, <- Htr; reflexivity|].
  split; [exact Hnr|].
  intros study' Hret.
  destruct (fst (objective cfg _ (set_trial_params [] s1))) as [ex | v]
    eqn:Hobj.
  - rewrite (Hfail ex eq_refl) in Hret. discriminate.
  - apply (Hcalls v). reflexivity.
Qed.

(** The search: nothing of its own is raised, and when it returns its
    events are those of its completed trials, one after the other. *)
Lemma optimize_sequential_calls (cfg : Config) (n : nat) :
  forall (d0 : list event) (study : Study) (s : state),
    search_inv d0 study ->
    exists ds,
      emitted (optimize_sequential (objective cfg) [] n study) s
              (concat ds) /\
      Forall no_raised ds /\
      (forall study',
         fst (optimize_sequential (objective cfg) [] n study s) = inr study' ->
         Forall (trial_calls cfg) ds /\
         length (study_trials study') =
         (length ds + length (study_trials study))%nat).
Proof.
  induction n as [|n IH]; intros d0 study s Hinv; simpl.
  - exists []. split; [destruct (study_stop_flag study); reflexivity|].
    split; [constructor|]. intros study' Hret.
    split; [constructor|].
    destruct (study_stop_flag study); simpl in Hret;
      injection Hret as <-; reflexivity.
  - destruct (study_stop_flag study) eqn:Hstop.
    + exists []. split; [reflexivity|]. split; [constructor|].
      intros study' Hret. split; [constructor|].
      simpl in Hret. injection Hret as <-. reflexivity.
    + destruct (run_trial_calls cfg d0 study s Hinv Hstop)
        as (d1 & Hd1 & Hnr1 & Hcalls1).
      unfold emitted in *. unfold bind.
      destruct (run_trial (objective cfg) [] study s) as [[ex | study1] s1]
        eqn:Hrun.
      * exists [d1]. simpl in *. rewrite app_nil_r.
        split; [exact Hd1|]. split; [repeat constructor; exact Hnr1|].
        intros study' Hret. discriminate.
      * destruct (run_trial_step cfg d0 study study1 s s1 Hinv Hstop Hrun)
          as (d1' & _ & Hinv1 & Hlen1).
        destruct (IH (d1' ++ d0) study1 s1 Hinv1) as (ds & Hds & Hnr & Hrest).
        exists (ds ++ [d1]). simpl in Hd1.
        rewrite concat_app. simpl. rewrite app_nil_r.
        split; [rewrite Hds, Hd1, app_assoc; reflexivity|].
        split; [apply Forall_app; split;
                [exact Hnr|repeat constructor; exact Hnr1]|].
        intros study' Hret. destruct (Hrest study' Hret) as [Hall Hlen].
        split.
        -- apply Forall_app. split; [exact Hall|].
           constructor; [|constructor]. apply (Hcalls1 study1). reflexivity.
        -- rewrite length_app. simpl. lia.
Qed.

End GridTrials.

(** ** The search and the final run together *)

Section EndToEnd.
Context {E : Env}.

Lemma no_raised_concat (ds : list (list event)) :
  Forall no_raised ds -> no_raised (concat ds).
Proof.
  induction 1 as [|d ds Hd _ IH]; simpl; [constructor|].
  apply Forall_app. split; assumption.
Qed.

Lemma trial_good_dict (d : list event) (t : FrozenTrial) :
  trial_good d t -> exists n e h l, ft_params t = dict_of_params n e h l.
Proof.
  intros (_ & Hlt & Hp & _).
  destruct (the_sampler_point (ft_grid_id t) Hlt)
    as (e & l & h & n & Hn & _).
  exists n, e, h, l. rewrite Hp.
  erewrite nth_error_nth by exact Hn. reflexivity.
Qed.

(** The best trial of a search that returned. *)
Lemma run_study_best (cfg : Config) (s s1 : state) (study : Study) :
  run_study cfg s = (inr study, s1) ->
  exists best vb n e h l,
    best_trial study = inr best /\ In best (study_trials study) /\
    ft_value best = Some vb /\
    (forall t v, In t (study_trials study) -> ft_value t = Some v ->
                 (v <= vb)%Q) /\
    ft_params best = dict_of_params n e h l /\
    length (study_trials study) = 128%nat.
Proof.
  intros Hrun.
  destruct (run_study_complete cfg s s1 study Hrun)
    as (d & _ & Hdir & Hgood & Hperm).
  assert (Hlen : length (study_trials study) = 128%nat).
  { apply Permutation_length in Hperm.
    rewrite length_map, length_seq in Hperm. exact Hperm. }
  assert (Hall : Forall has_value (study_trials study)).
  { eapply Forall_impl; [|exact Hgood].
    intros t (Hc & _ & _ & v & Hv & _). split; eauto. }
  assert (Hne : study_trials study <> []).
  { intros Hnil. rewrite Hnil in Hlen. discriminate. }
  destruct (best_trial_maximal study Hdir Hall Hne)
    as (best & vb & Hb & Hin & Hvb & Hmax).
  rewrite Forall_forall in Hgood.
  destruct (trial_good_dict d best (Hgood best Hin))
    as (n & e & h & l & Hps).
  exists best, vb, n, e, h, l. auto 8.
Qed.

(** The tuning branch raises nothing of its own, and the parameters it
    returns are those of the best trial, with the four keys. *)
Lemma tune_outcome (cfg : Config) (s : state) :
  exists d, emitted (tune cfg) s d /\ no_raised d /\
    forall bp, fst (tune cfg s) = inr bp ->
      exists study best,
        run_study cfg s = (inr study, snd (tune cfg s)) /\
        best_trial study = inr best /\ bp = ft_params best.
Proof.
  destruct (optimize_sequential_calls cfg 256 []
              {| study_direction := MAXIMIZE; study_sampler := the_sampler;
                 study_trials := []; study_stop_flag := false |} s
              search_inv_initial)
    as (ds & Hds & Hnr & _).
  unfold emitted in *. unfold tune, bind.
  change (optimize_sequential (objective cfg) [] 256 _ s)
    with (run_study cfg s) in Hds.
  destruct (run_study cfg s) as [[ex | study] s1] eqn:Hrun.
  - exists (concat ds). simpl in *. split; [exact Hds|].
    split; [apply no_raised_concat; exact Hnr|]. intros bp H. discriminate.
  - destruct (run_study_best cfg s s1 study Hrun)
      as (best & vb & n & e & h & l & Hb & _).
    rewrite Hb. simpl in *. exists (concat ds). split; [exact Hds|].
    split; [apply no_raised_concat; exact Hnr|].
    intros bp Hbp. injection Hbp as <-. exists study, best. auto.
Qed.

(** The final run on a dict with the four keys: its model and its training
    get the four values, the learning rate also as Adam's, and the one
    exception it can raise itself is that of [accuracy_score]. *)
Lemma final_run_on_params (cfg : Config) (n e h l : PyVal) (s : state) :
  exists d, emitted (final_run cfg (dict_of_params n e h l)) s d /\
    (forall g out, In (EvGAT g out) d ->
       arg_num_neurons g = n /\ arg_embedding_size g = e /\
       arg_num_heads g = h /\ arg_dropout g = Some (DROPOUT cfg)) /\
    (forall a out, In (EvTrain a out) d ->
       tr_num_neurons a = n /\ tr_embedding_size a = e /\
       tr_heads a = h /\ tr_lr a = l /\ tr_optimizer_lr a = l) /\
    (forall ex, In (EvRaised ex) d ->
       exists t r, final_accuracy t r = inl ex) /\
    (forall rep, fst (final_run cfg (dict_of_params n e h l) s) = inr rep ->
       exists g model0 a model,
         In (EvGAT g (inr model0)) d /\ In (EvTrain a (inr model)) d /\
         tr_model a = model0).
Proof.
  unfold emitted, final_run. unfold getitem, dict_of_params.
  cbn [dict_get String.eqb Ascii.eqb Bool.eqb].
  unfold_driver. exec; give_delta; cbn [In];
    (split; [|split; [|split]]); event_cases; solve_links;
    try discriminate;
    try match goal with
        | H : final_accuracy _ _ = inl _ |- _ => exact H
        end.
Qed.

End EndToEnd.

(** ** Edge index and accuracy, further *)

Lemma StronglySorted_NoDup {A : Type} (R : A -> A -> Prop) (l : list A) :
  (forall x, ~ R x x) -> StronglySorted R l -> NoDup l.
Proof.
  intros Hirr. induction 1 as [|a l Hs IH Hall]; constructor; auto.
  intros Hin. rewrite Forall_forall in Hall.
  exact (Hirr a (Hall a Hin)).
Qed.

Lemma row_where_length (i j : nat) (row : list Q) :
  length (row_where i j row) = length (filter is_one row).
Proof.
  revert j. induction row as [|x rest IH]; intros j; simpl; [reflexivity|].
  unfold is_one at 1. destruct (Qeq_bool x 1); simpl; rewrite IH; reflexivity.
Qed.

Lemma mat_where_length (i : nat) (m : Matrix) :
  length (mat_where i m) = length (filter is_one (flatten m)).
Proof.
  revert i. unfold flatten.
  induction m as [|r rest IH]; intros i; simpl; [reflexivity|].
  rewrite length_app, filter_app, length_app, row_where_length, IH.
  reflexivity.
Qed.

(** X9.  The edge index has one column per entry equal to 1, lists no
    pair twice, and every pair it lists is a position inside the
    matrix: a row index below the number of rows and a column index below
    the length of that row. *)
Theorem edge_index_within_matrix (m : Matrix) :
  length (edge_pairs (edge_index_of m)) = length (filter is_one (flatten m)) /\
  NoDup (edge_pairs (edge_index_of m)) /\
  forall p, In p (edge_pairs (edge_index_of m)) ->
    exists i j, p = (Z.of_nat i, Z.of_nat j) /\
                (i < shape0 m)%nat /\ (j < length (nth i m []))%nat.
Proof.
  split; [|split].
  - rewrite edge_pairs_edge_index_of, length_map. apply mat_where_length.
  - apply (StronglySorted_NoDup lex_lt); [|apply edge_index_sorted].
    intros [a b]. unfold lex_lt. simpl. lia.
  - intros p Hin. rewrite edge_pairs_edge_index_of in Hin.
    apply in_map_iff in Hin. destruct Hin as ([i j] & <- & Hin).
    apply mat_where_In in Hin. rewrite Nat.sub_0_r in Hin.
    destruct Hin as (_ & row & x & Hr & Hx & _).
    exists i, j. split; [reflexivity|]. split.
    + unfold shape0. apply nth_error_Some. congruence.
    + rewrite (nth_error_nth _ _ _ Hr).
      apply nth_error_Some. congruence.
Qed.

Lemma entry_nth_error (m : Matrix) (i j : nat) (row : list Q) (x : Q) :
  nth_error m i = Some row -> nth_error row j = Some x -> entry m i j = x.
Proof.
  intros Hr Hx. unfold entry.
  rewrite (nth_error_nth _ _ _ Hr). apply nth_error_nth. exact Hx.
Qed.

(** X10.  For a square symmetric adjacency matrix the edge index has an
    edge in both directions or in none. *)
Theorem edge_index_symmetric (n : nat) (m : Matrix) (i j : nat) :
  square n m -> symmetric_matrix m ->
  In (Z.of_nat i, Z.of_nat j) (edge_pairs (edge_index_of m)) ->
  In (Z.of_nat j, Z.of_nat i) (edge_pairs (edge_index_of m)).
Proof.
  intros [Hlen Hrows] Hsym Hin.
  apply edge_index_membership in Hin.
  destruct Hin as (row & x & Hr & Hx & H1).
  apply edge_index_membership.
  rewrite Forall_forall in Hrows.
  assert (Hi : (i < n)%nat).
  { rewrite <- Hlen. apply nth_error_Some. congruence. }
  assert (Hj : (j < n)%nat).
  { rewrite <- (Hrows row) by (eapply nth_error_In; eauto).
    apply nth_error_Some. congruence. }
  destruct (nth_error m j) as [row'|] eqn:Hr';
    [|apply nth_error_None in Hr'; lia].
  destruct (nth_error row' i) as [y|] eqn:Hy.
  - exists row', y. split; [reflexivity|]. split; [exact Hy|].
    rewrite <- (entry_nth_error m j i row' y Hr' Hy).
    apply Qeq_trans with (entry m i j); [apply Qeq_sym, Hsym|].
    rewrite (entry_nth_error m i j row x Hr Hx). exact H1.
  - apply nth_error_None in Hy.
    rewrite (Hrows row') in Hy by (eapply nth_error_In; eauto). lia.
Qed.

(** A symmetric two-gene adjacency. *)
Lemma edge_index_symmetric_demo :
  In (Z.of_nat 0, Z.of_nat 1) (edge_pairs (edge_index_of Demo.adj)) /\
  In (Z.of_nat 1, Z.of_nat 0) (edge_pairs (edge_index_of Demo.adj)).
Proof.
  assert (Hin : In (Z.of_nat 0, Z.of_nat 1)
                   (edge_pairs (edge_index_of Demo.adj)))
    by (left; reflexivity).
  split; [exact Hin|].
  apply (edge_index_symmetric 2 Demo.adj 0 1).
  - split; [reflexivity|repeat constructor].
  - intros [|[|i]] [|[|j]]; unfold entry; simpl; try reflexivity;
      repeat match goal with
             | |- context [match ?k with _ => _ end] => destruct k; simpl
             end; reflexivity.
  - exact Hin.
Defined.

Lemma count_matches_le (a b : list Q) :
  (count_matches a b <= length a)%nat.
Proof.
  revert b. induction a as [|x a IH]; intros [|y b]; simpl; try lia.
  specialize (IH b). destruct (Qeq_bool x y); lia.
Qed.

Lemma Qmake_range (c : Z) (d : positive) :
  0 <= c <= Z.pos d -> (0 <= c # d <= 1)%Q.
Proof. intros H. unfold Qle. simpl. lia. Qed.

(** X8.  The accuracy of the final run, when it is computed, is a number
    between 0 and 1 and the two matrices have the same number of entries;
    matrices with different numbers of entries give the [ValueError] of
    [accuracy_score]. *)
Theorem final_accuracy_range (t p : Matrix) :
  (forall q, final_accuracy t p = inr q ->
     (0 <= q <= 1)%Q /\ length (flatten t) = length (flatten p)) /\
  (length (flatten t) <> length (flatten p) ->
   final_accuracy t p = inl (ValueError "inconsistent numbers of samples")).
Proof.
  unfold final_accuracy, accuracy_score. rewrite length_map. split.
  - intros q.
    destruct (Nat.eqb_spec (length (flatten t)) (length (flatten p)))
      as [Heq | Hne]; cbn [negb]; [|discriminate].
    destruct (length (flatten t)) as [|k] eqn:Hk; [discriminate|].
    intros H. injection H as <-. split; [|exact Heq].
    pose proof (count_matches_le (flatten t) (map binarize (flatten p)))
      as Hle.
    rewrite Hk in Hle.
    assert (Hpos : Z.pos (Pos.of_nat (S k)) = Z.of_nat (S k)).
    { rewrite <- positive_nat_Z, Nat2Pos.id by discriminate. reflexivity. }
    assert (Hc : 0 <= Z.of_nat (count_matches (flatten t)
                                   (map binarize (flatten p)))
                 <= Z.pos (Pos.of_nat (S k)))
      by (rewrite Hpos; lia).
    apply Qmake_range. exact Hc.
  - intros Hne.
    destruct (Nat.eqb_spec (length (flatten t)) (length (flatten p)))
      as [Heq | _]; [contradiction|reflexivity].
Qed.

(** ** The whole run *)

Section RunTheorems.
Context {E : Env}.

Lemma main_run_facts (cfg : Config) : emits (run_facts cfg) (main cfg).
Proof.
  apply emits_main.
  - apply additive_run_facts.
  - apply objective_run_facts.
  - intros bp s. destruct (final_run_run_facts cfg bp s) as (d & Hd & H & _).
    exists d. auto.
Qed.


Lemma main_fixed (cfg : Config) (s : state) :
  TUNE_HYPERPARAMETERS cfg = false ->
  main cfg s =
  final_run cfg (dict_of_params (cfg_num_neurons cfg)
                   (cfg_embedding_size cfg) (cfg_num_heads cfg)
                   (cfg_learning_rate cfg)) s.
Proof.
  intros H. unfold main, choose_params. rewrite H. reflexivity.
Qed.


Lemma trial_calls_one_log (cfg : Config) (ds : list (list event)) :
  Forall (trial_calls cfg) ds ->
  length (filter is_log (concat ds)) = length ds /\
  length (concat ds) = (8 * length ds)%nat.
Proof.
  induction 1 as [|d ds Hd _ [IH1 IH2]]; [split; reflexivity|].
  destruct Hd as (n & e & h & l & eg & adj & tadj & model0 & model &
                  recon & mt & ->).
  cbn [concat]. rewrite filter_app, !length_app, IH1, IH2.
  cbn [filter is_log length app]. split; lia.
Qed.

End RunTheorems.

(** X1.  In both modes, every call of the whole run is made with the
    configured constants: the expression file, the network file, the
    threshold and the noise factor for the graphs, [NUM_EPOCHS] for every
    training; the learning rate of the optimizer of a training is the one
    the training is labelled with; every logged row carries the run id
    and the dataset of the configuration. *)
Theorem every_call_uses_configuration {E : Env} (cfg : Config) (s : state) :
  exists d, emitted (main cfg) s d /\ Forall (configured_call cfg) d.
Proof.
  destruct (main_run_facts cfg s) as (d & Hd & H & _). exists d. auto.
Qed.

(** X2.  In the whole run every training is given a model that a
    [GAT_VGAE] call of the run returned, built with the number of neurons,
    embedding size and heads the training is labelled with, with as many
    nodes as the adjacency target has rows and as many features as the
    expression data has columns, and the edge index of that adjacency
    target; every forward pass runs a model a training returned, on that
    training's edge index and features; every evaluation compares the
    output of such a forward pass with the true adjacency given to the
    training. *)
Theorem run_model_wiring {E : Env} (cfg : Config) (s : state) :
  exists d, emitted (main cfg) s d /\ model_wiring d.
Proof.
  destruct (main_run_facts cfg s) as (d & Hd & _ & H & _). exists d. auto.
Qed.

(** X3.  Every row given to [log_run_info] reports the metrics an
    [evaluate_model] call of the run returned and the hyperparameters of a
    training of the run; the final run logs no row, so a run with the
    predefined hyperparameters logs none at all. *)
Theorem run_logging {E : Env} (cfg : Config) :
  (forall s, exists d, emitted (main cfg) s d /\ log_wiring d /\
     (TUNE_HYPERPARAMETERS cfg = false ->
      Forall (fun ev => is_log ev = false) d)) /\
  (forall bp s, exists d, emitted (final_run cfg bp) s d /\
     Forall (fun ev => is_log ev = false) d).
Proof.
  split.
  - intros s. destruct (main_run_facts cfg s) as (d & Hd & _ & _ & H).
    exists d. split; [exact Hd|]. split; [exact H|].
    intros Hfix.
    destruct (final_run_run_facts cfg
                (dict_of_params (cfg_num_neurons cfg)
                   (cfg_embedding_size cfg) (cfg_num_heads cfg)
                   (cfg_learning_rate cfg)) s) as (d' & Hd' & _ & Hnl).
    unfold emitted in Hd, Hd'. rewrite (main_fixed cfg s Hfix) in Hd.
    rewrite Hd' in Hd. apply app_inv_tail in Hd. subst. exact Hnl.
  - intros bp s. destruct (final_run_run_facts cfg bp s) as (d & Hd & _ & H).
    exists d. auto.
Qed.


(** X5.  When a run in tuning mode returns, the search returned a study,
    [best_params] is the parameter dict of its best trial, a trial whose
    value no trial of the study exceeds, and the final run built its model
    with that trial's number of neurons, embedding size and heads and with
    the configured dropout, and trained it with that trial's learning rate,
    as label and as learning rate of the optimizer. *)
Theorem tuned_run_uses_best_trial {E : Env} (cfg : Config) (s s' : state)
  (rep : FinalReport) :
  TUNE_HYPERPARAMETERS cfg = true ->
  main cfg s = (inr rep, s') ->
  exists study s1 best vb n e h l,
    run_study cfg s = (inr study, s1) /\
    best_trial study = inr best /\ ft_value best = Some vb /\
    (forall t v, In t (study_trials study) -> ft_value t = Some v ->
                 (v <= vb)%Q) /\
    ft_params best = dict_of_params n e h l /\
    final_run cfg (ft_params best) s1 = (inr rep, s') /\
    exists d g model0 a model,
      trace s' = d ++ trace s1 /\
      In (EvGAT g (inr model0)) d /\
      arg_num_neurons g = n /\ arg_embedding_size g = e /\
      arg_num_heads g = h /\ arg_dropout g = Some (DROPOUT cfg) /\
      In (EvTrain a (inr model)) d /\ tr_model a = model0 /\
      tr_lr a = l /\ tr_optimizer_lr a = l.
Proof.
  intros Htune Hmain. unfold main in Hmain.
  apply bind_success in Hmain. destruct Hmain as (bp & s1 & Hc & Hf).
  unfold choose_params in Hc. rewrite Htune in Hc.
  destruct (tune_outcome cfg s) as (_ & _ & _ & Hbp).
  rewrite Hc in Hbp. destruct (Hbp bp eq_refl) as (study & best & Hrun & Hb & ->).
  simpl in Hrun.
  destruct (run_study_best cfg s s1 study Hrun)
    as (best' & vb & n & e & h & l & Hb' & _ & Hvb & Hmax & Hps & _).
  rewrite Hb in Hb'. injection Hb' as <-.
  exists study, s1, best, vb, n, e, h, l.
  repeat (split; [assumption|]).
  destruct (final_run_on_params cfg n e h l s1)
    as (d & Hd & Hgat & Htrain & _ & Hex).
  unfold emitted in Hd. rewrite <- Hps, Hf in Hd, Hex. simpl in Hd, Hex.
  destruct (Hex rep eq_refl) as (g & model0 & a & model & Hg & Ha & Hm).
  exists d, g, model0, a, model.
  destruct (Hgat g _ Hg) as (G1 & G2 & G3 & G4).
  destruct (Htrain a _ Ha) as (_ & _ & _ & T4 & T5).
  repeat (split; [assumption|]). assumption.
Qed.

(** X6.  With the predefined hyperparameters every [GAT_VGAE] of the run
    is built with the configured number of neurons, embedding size and
    heads and the configured dropout, and every training is labelled with
    the configured values and uses the configured learning rate. *)
Theorem fixed_run_uses_configuration {E : Env} (cfg : Config) (s : state) :
  TUNE_HYPERPARAMETERS cfg = false ->
  exists d, emitted (main cfg) s d /\
    (forall g out, In (EvGAT g out) d ->
       arg_num_neurons g = cfg_num_neurons cfg /\
       arg_embedding_size g = cfg_embedding_size cfg /\
       arg_num_heads g = cfg_num_heads cfg /\
       arg_dropout g = Some (DROPOUT cfg)) /\
    (forall a out, In (EvTrain a out) d ->
       tr_num_neurons a = cfg_num_neurons cfg /\
       tr_embedding_size a = cfg_embedding_size cfg /\
       tr_heads a = cfg_num_heads cfg /\
       tr_lr a = cfg_learning_rate cfg /\
       tr_optimizer_lr a = cfg_learning_rate cfg).
Proof.
  intros Hfix.
  destruct (final_run_on_params cfg (cfg_num_neurons cfg)
              (cfg_embedding_size cfg) (cfg_num_heads cfg)
              (cfg_learning_rate cfg) s) as (d & Hd & Hg & Ht & _).
  exists d. unfold emitted. rewrite (main_fixed cfg s Hfix). auto.
Qed.

(** X7.  Three kinds of configuration values reach no call.  The paths
    [run_info_path] and [epoch_info_path] and the key [k_fraction] change
    nothing of a run.  The key [dropout] changes nothing of the search.  In
    tuning mode the four predefined hyperparameters change nothing of the
    run. *)
Theorem unused_configuration {E : Env} (cfg : Config) :
  (forall a b k, main (with_unused cfg a b k) = main cfg) /\
  (forall d, run_study (with_dropout cfg d) = run_study cfg) /\
  (TUNE_HYPERPARAMETERS cfg = true ->
   forall n e h l, main (with_predefined cfg n e h l) = main cfg).
Proof.
  split; [|split].
  - apply main_with_unused.
  - apply run_study_with_dropout.
  - intros Ht n e h l. apply main_with_predefined. exact Ht.
Qed.

(** X11.  The events of a search that returns are those of 128 completed
    trials, one after the other and nothing between: each trial called
    [preprocess_data], [construct_adjacency_matrix_with_noise],
    [create_true_adjacency_matrix], [GAT_VGAE], [train_and_evaluate], the
    model, [evaluate_model] and [log_run_info], once each and in this
    order; 1024 calls in all, 128 of them of [log_run_info]. *)
Theorem search_is_128_trials {E : Env} (cfg : Config) (s s' : state)
  (study : Study) :
  run_study cfg s = (inr study, s') ->
  exists ds, trace s' = concat ds ++ trace s /\
    length ds = 128%nat /\ Forall (trial_calls cfg) ds /\
    length (concat ds) = 1024%nat /\
    length (filter is_log (concat ds)) = 128%nat.
Proof.
  intros Hrun.
  destruct (optimize_sequential_calls cfg 256 []
              {| study_direction := MAXIMIZE; study_sampler := the_sampler;
                 study_trials := []; study_stop_flag := false |} s
              search_inv_initial)
    as (ds & Hds & _ & Hret).
  change (optimize_sequential (objective cfg) [] 256 _ s)
    with (run_study cfg s) in Hret.
  unfold emitted in Hds.
  change (optimize_sequential (objective cfg) [] 256 _ s)
    with (run_study cfg s) in Hds.
  rewrite Hrun in Hds, Hret. simpl in Hds.
  destruct (Hret study eq_refl) as [Hall Hlen].
  destruct (run_study_best cfg s s' study Hrun)
    as (_ & _ & _ & _ & _ & _ & _ & _ & _ & _ & _ & H128).
  cbn [study_trials length] in Hlen. rewrite Nat.add_0_r, H128 in Hlen.
  destruct (trial_calls_one_log cfg ds Hall) as [Hlog Hcount].
  exists ds. rewrite Hlog, Hcount, <- Hlen. auto.
Qed.

(** ** The two-gene run again *)

(** The two-gene run with the predefined hyperparameters logs no row. *)
Lemma run_logging_demo :
  TUNE_HYPERPARAMETERS (Demo.cfg false) = false /\
  exists d, emitted (@main Demo.env (Demo.cfg false)) Demo.start d /\
            Forall (fun ev => is_log ev = false) d.
Proof.
  split; [reflexivity|].
  destruct (proj1 (@run_logging Demo.env (Demo.cfg false)) Demo.start)
    as (d & Hd & _ & Hnl).
  exists d. split; [exact Hd|]. apply Hnl. reflexivity.
Defined.

(** The two-gene run in tuning mode trains its final model with the
    parameters of the best trial. *)
Lemma tuned_run_demo :
  TUNE_HYPERPARAMETERS (Demo.cfg true) = true /\
  @main Demo.env (Demo.cfg true) Demo.start
    = (inr demo_tuned_report,
       snd (@main Demo.env (Demo.cfg true) Demo.start)) /\
  exists study s1 best,
    @run_study Demo.env (Demo.cfg true) Demo.start = (inr study, s1) /\
    best_trial study = inr best /\
    @final_run Demo.env (Demo.cfg true) (ft_params best) s1
      = (inr demo_tuned_report,
         snd (@main Demo.env (Demo.cfg true) Demo.start)).
Proof.
  split; [reflexivity|].
  assert (Hrun : @main Demo.env (Demo.cfg true) Demo.start
                 = (inr demo_tuned_report,
                    snd (@main Demo.env (Demo.cfg true) Demo.start)))
    by (vm_compute; reflexivity).
  split; [exact Hrun|].
  destruct (@tuned_run_uses_best_trial Demo.env (Demo.cfg true) Demo.start
              _ demo_tuned_report eq_refl Hrun)
    as (study & s1 & best & vb & n & e & h & l & H1 & H2 & _ & _ & _ &
        H6 & _).
  exists study, s1, best. auto.
Defined.

(** The two-gene run with the predefined hyperparameters builds its model
    with 32 neurons. *)
Lemma fixed_run_demo :
  TUNE_HYPERPARAMETERS (Demo.cfg false) = false /\
  exists d, emitted (@main Demo.env (Demo.cfg false)) Demo.start d /\
    forall g out, In (EvGAT g out) d -> arg_num_neurons g = VInt 32.
Proof.
  split; [reflexivity|].
  destruct (@fixed_run_uses_configuration Demo.env (Demo.cfg false)
              Demo.start eq_refl) as (d & Hd & Hg & _).
  exists d. split; [exact Hd|]. intros g out Hin.
  exact (proj1 (Hg g out Hin)).
Defined.

(** In tuning mode the two-gene run does not depend on the predefined
    hyperparameters. *)
Lemma unused_configuration_demo :
  TUNE_HYPERPARAMETERS (Demo.cfg true) = true /\
  @main Demo.env
    (with_predefined (Demo.cfg true) (VInt 1) (VInt 1) (VInt 1) (VInt 1))
  = @main Demo.env (Demo.cfg true).
Proof.
  split; [reflexivity|].
  apply (proj2 (proj2 (@unused_configuration Demo.env (Demo.cfg true))));
    reflexivity.
Defined.

(** A 2 x 2 truth against a 1 x 2 prediction. *)
Lemma final_accuracy_range_demo :
  length (flatten Demo.adj) <> length (flatten [[1 # 2; 6 # 10]]%Q) /\
  final_accuracy Demo.adj [[1 # 2; 6 # 10]]%Q
  = inl (ValueError "inconsistent numbers of samples").
Proof.
  assert (Hne : length (flatten Demo.adj)
                <> length (flatten [[1 # 2; 6 # 10]]%Q))
    by (simpl; discriminate).
  split; [exact Hne|].
  exact (proj2 (final_accuracy_range Demo.adj [[1 # 2; 6 # 10]]%Q) Hne).
Defined.

(** The search of the two-gene run is 128 trials of eight calls. *)
Lemma search_is_128_trials_demo :
  @run_study Demo.env (Demo.cfg true) Demo.start
    = (inr Demo.study,
       snd (@run_study Demo.env (Demo.cfg true) Demo.start)) /\
  exists ds,
    trace (snd (@run_study Demo.env (Demo.cfg true) Demo.start))
    = concat ds ++ trace Demo.start /\ length ds = 128%nat.
Proof.
  assert (Hrun : @run_study Demo.env (Demo.cfg true) Demo.start
                 = (inr Demo.study,
                    snd (@run_study Demo.env (Demo.cfg true) Demo.start)))
    by (vm_compute; reflexivity).
  split; [exact Hrun|].
  destruct (@search_is_128_trials Demo.env (Demo.cfg true) Demo.start
              _ Demo.study Hrun) as (ds & Hds & Hlen & _).
  exists ds. auto.
Defined.
